(** * Skindentity: the skin API template ([main.py])

    A shallow embedding of [skin_from_url] and [api_template] together with
    the Python string operations and the Pillow image operations they call,
    followed by the properties of the cache-key derivation, of the skin
    normalisation and of the margin / upscale post-processing. *)

From Stdlib Require Import ZArith Ascii.
From stdpp Require Import base numbers list strings pretty gmap.

Local Open Scope Z_scope.

(** ** Python strings *)

(** A Python [str] is a sequence of characters; slicing, [split] and
    [rsplit] are list operations, so a [str] is a [list ascii].  Literals
    of the source are written [lit "..."]. *)
Abbreviation str := (list ascii).

Definition lit (s : string) : str := String.list_ascii_of_string s.

(** [str(n)] for a Python [int]. *)
Definition str_int (n : Z) : str := lit (pretty n).

Module Py.

(** Clamping of one slice bound, as [slice.indices] does for step 1:
    a negative bound counts from the end. *)
Definition norm_index (len i : Z) : Z :=
  if i <? 0 then Z.max (len + i) 0 else Z.min i len.

(** [s[start:stop]]. *)
Definition slice {A} (s : list A) (start stop : Z) : list A :=
  let len := Z.of_nat (length s) in
  let lo := norm_index len start in
  let hi := norm_index len stop in
  take (Z.to_nat (hi - lo)) (drop (Z.to_nat lo) s).

(** [s.split(sep)] for a one-character separator: never empty. *)
Fixpoint split (sep : ascii) (s : str) : list str :=
  match s with
  | [] => [[]]
  | c :: s' =>
      if decide (c = sep) then [] :: split sep s'
      else match split sep s' with
           | w :: ws => (c :: w) :: ws
           | [] => [[c]]
           end
  end.

(** [l[-1]] and [l[0]] on the lists that [split] and [rsplit] return
    (both are non-empty, so no [IndexError] arises). *)
Definition item_last (l : list str) : str := default [] (last l).
Definition item_0 (l : list str) : str := default [] (head l).

(** Text before and after the first [sep], when there is one. *)
Fixpoint cut_first (sep : ascii) (s : str) : option (str * str) :=
  match s with
  | [] => None
  | c :: s' =>
      if decide (c = sep) then Some ([], s')
      else match cut_first sep s' with
           | Some (a, b) => Some (c :: a, b)
           | None => None
           end
  end.

(** [s.rsplit(sep, 1)]: one split, at the last occurrence of [sep]. *)
Definition rsplit1 (sep : ascii) (s : str) : list str :=
  match cut_first sep (rev s) with
  | Some (a, b) => [rev b; rev a]
  | None => [s]
  end.

End Py.

(** ** Pillow images *)

Inductive Mode := RGBA | RGB | L | P.

Global Instance Mode_eq_dec : EqDecision Mode.
Proof. solve_decision. Defined.

(** A pixel is the colour it denotes, as [(r, g, b, a)]. *)
Definition Pixel : Type := Z * Z * Z * Z.

Definition transparent : Pixel := (0, 0, 0, 0).

Record Image := mkImage {
  mode : Mode;
  width : Z;
  height : Z;
  raster : list (list Pixel)   (* rows, top to bottom *)
}.

Global Instance Image_eq_dec : EqDecision Image.
Proof. solve_decision. Defined.

Definition size (im : Image) : Z * Z := (width im, height im).

(** The raster agrees with the declared size. *)
Definition image_ok (im : Image) : Prop :=
  0 <= width im /\ 0 <= height im /\
  length (raster im) = Z.to_nat (height im) /\
  Forall (fun row => length row = Z.to_nat (width im)) (raster im).

Global Instance image_ok_dec im : Decision (image_ok im).
Proof. unfold image_ok. apply _. Defined.

Definition getpixel (im : Image) (x y : Z) : option Pixel :=
  if bool_decide (0 <= x /\ 0 <= y) then
    row ← raster im !! Z.to_nat y; row !! Z.to_nat x
  else None.

(** A [W] x [H] raster filled from a function of the coordinates. *)
Definition raster_of (W H : Z) (f : Z -> Z -> Pixel) : list (list Pixel) :=
  (fun y => (fun x => f x y) <$> seqZ 0 W) <$> seqZ 0 H.

Module PIL.

(** [Image.new(mode, size)]: every band zero.  (Pillow raises
    [ValueError] on a negative size; the template only asks for
    [width + 2 * margin] with [margin > 0].) *)
Definition new (m : Mode) (sz : Z * Z) : Image :=
  {| mode := m; width := sz.1; height := sz.2;
     raster := raster_of sz.1 sz.2 (fun _ _ => transparent) |}.

(** [im.convert(m)]: same size, same colours, stored in mode [m]. *)
Definition convert (im : Image) (m : Mode) : Image :=
  {| mode := m; width := width im; height := height im;
     raster := raster im |}.

(** [dst.paste(src, (ox, oy))] without a mask: the box of [src]'s size
    at [(ox, oy)] is overwritten with [src] (converted to [dst]'s
    mode); the rest of [dst] is kept. *)
Definition paste (dst src : Image) (box : Z * Z) : Image :=
  let '(ox, oy) := box in
  {| mode := mode dst; width := width dst; height := height dst;
     raster := raster_of (width dst) (height dst) (fun x y =>
       let old := default transparent (getpixel dst x y) in
       if bool_decide (ox <= x < ox + width src /\ oy <= y < oy + height src)
       then default old (getpixel src (x - ox) (y - oy))
       else old) |}.

(** [im.resize(size, Image.NEAREST)]: the output pixel [(x, y)] is the
    input pixel under its centre, [floor ((x + 1/2) * w / W)]. *)
Definition nearest (n N x : Z) : Z := ((2 * x + 1) * n) `div` (2 * N).

Definition resize_NEAREST (im : Image) (sz : Z * Z) : Image :=
  let '(W, H) := sz in
  {| mode := mode im; width := W; height := H;
     raster := raster_of W H (fun x y =>
       default transparent
         (getpixel im (nearest (width im) W x) (nearest (height im) H y))) |}.

End PIL.

(** ** Exceptions, responses and the function-body monad *)

(** The exception classes that [main.py] defines or names, and
    [OtherError] for an exception of any other class, by the name of that
    class. *)
Inductive Exn :=
  | UnknownPlayerError | UrlError | ImageSizeError | ArgumentError
  | ValueError | UnidentifiedImageError | binascii_Error
  | FileNotFoundError | FileExistsError
  | OtherError (name : string).

Global Instance Exn_eq_dec : EqDecision Exn.
Proof. solve_decision. Defined.

(** What a route hands back to the framework. *)
Inductive Response :=
  | HTTPException (status_code : Z) (detail : string)
  | StreamingResponse (content : Image) (media_type : string).

(** Calls to the collaborators, in the order they are made. *)
Inductive Event :=
  | EvLookup (player : str)
  | EvFetch (url : str)
  | EvRender (skin : Image) (slim : option bool) (overlay : bool).

(** The disk (files hold the image saved in them) and the call trace. *)
Record World := mkWorld {
  files : gmap str Image;
  dirs : gset str;
  trace : list Event
}.

(** A statement of a function body either falls through with a value,
    executes [return], or raises. *)
Inductive Result (R A : Type) :=
  | Val (a : A)
  | Ret (r : R)
  | Exc (e : Exn).
Arguments Val {R A} a.
Arguments Ret {R A} r.
Arguments Exc {R A} e.

Definition Body (R A : Type) : Type := World -> Result R A * World.

Definition ret {R A} (a : A) : Body R A := fun w => (Val a, w).
Definition return_ {R A} (r : R) : Body R A := fun w => (Ret r, w).
Definition raise {R A} (e : Exn) : Body R A := fun w => (Exc e, w).

Definition bind {R A B} (c : Body R A) (k : A -> Body R B) : Body R B :=
  fun w =>
    match c w with
    | (Val a, w') => k a w'
    | (Ret r, w') => (Ret r, w')
    | (Exc e, w') => (Exc e, w')
    end.

Global Instance Body_ret R : MRet (Body R) := fun A a => ret a.
Global Instance Body_bind R : MBind (Body R) := fun A B k c => bind c k.

(** [try: c except ...: h]: [h e] is [Some] for the exceptions that an
    [except] clause names. *)
Definition try_except {R A} (c : Body R A) (h : Exn -> option (Body R A))
  : Body R A :=
  fun w =>
    match c w with
    | (Exc e, w') =>
        match h e with
        | Some k => k w'
        | None => (Exc e, w')
        end
    | r => r
    end.

(** Calling a function: its [return] is the value of the call. *)
Definition call {R A} (f : Body A A) : Body R A :=
  fun w =>
    match f w with
    | (Val a, w') | (Ret a, w') => (Val a, w')
    | (Exc e, w') => (Exc e, w')
    end.

(** A collaborator's answer: a value or an exception. *)
Definition answer {R A} (x : Exn + A) : Body R A :=
  match x with
  | inl e => raise e
  | inr a => ret a
  end.

Definition log {R} (ev : Event) : Body R unit :=
  fun w => (Val tt, {| files := files w; dirs := dirs w;
                       trace := trace w ++ [ev] |}).

(** Python truthiness of an optional query string. *)
Definition truthy (s : option str) : bool :=
  match s with
  | Some (_ :: _) => true
  | _ => false
  end.

Definition text (s : option str) : str := default [] s.

(** ** The file system under the cache root *)

Module Path.

(** [a / b] as [PurePosixPath] joins: an absolute [b] replaces [a]; a
    trailing separator of [b] is dropped.  (Collapsing of repeated
    separators and of [.] components is not modelled, and neither are the
    drive and backslash rules that [pathlib] applies on Windows.) *)
Definition strip_sep (b : str) : str :=
  match rev b with
  | "/"%char :: r => rev r
  | _ => b
  end.

Definition div (a b : str) : str :=
  match b with
  | "/"%char :: _ => strip_sep b
  | _ => a ++ lit "/" ++ strip_sep b
  end.

(** [p.parent]: the text before the last separator. *)
Definition parent (p : str) : str :=
  match Py.cut_first "/" (rev p) with
  | Some (_, b) => rev b
  | None => []
  end.

Definition is_file {R} (p : str) : Body R bool :=
  fun w => (Val (bool_decide (is_Some (files w !! p))), w).

(** [Path(p).mkdir()]. *)
Definition mkdir {R} (p : str) : Body R unit :=
  fun w =>
    if bool_decide (p ∈ dirs w) then (Exc FileExistsError, w)
    else if bool_decide (parent p ∈ dirs w) then
      (Val tt, {| files := files w; dirs := {[p]} ∪ dirs w;
                  trace := trace w |})
    else (Exc FileNotFoundError, w).

End Path.

(** [Image.open(path)] on a file of the disk. *)
Definition Image_open_file {R} (p : str) : Body R Image :=
  fun w =>
    match files w !! p with
    | Some im => (Val im, w)
    | None => (Exc FileNotFoundError, w)
    end.

(** [image.save(path)]: the directory must exist.  (The [ValueError] that
    [open] raises for a path with a NUL character is not modelled.) *)
Definition Image_save {R} (im : Image) (p : str) : Body R unit :=
  fun w =>
    if bool_decide (Path.parent p ∈ dirs w) then
      (Val tt, {| files := <[p := im]> (files w); dirs := dirs w;
                  trace := trace w |})
    else (Exc FileNotFoundError, w).

(** ** The collaborators *)

Abbreviation bytes := (list Byte.byte).

Global Instance byte_eq_dec : EqDecision Byte.byte := Byte.byte_eq_dec.

(** The network, the decoders and the [renders] module, as [main.py]
    sees them.  [profile] stands for the two profile-service requests of
    [skin_url_from_player] (its answer is the skin link and the slim
    flag, or the exception that the requests or the JSON access raise);
    [old_to_new_skin] and the two composites are imported from
    [renders]. *)
Record Env := mkEnv {
  os_name : string;
  profile : str -> Exn + (str * bool);
  urlopen : str -> Exn + bytes;
  Image_open : bytes -> Exn + Image;
  b64decode : str -> Exn + bytes;
  old_to_new_skin : Image -> Image;
  skin_to_portrait : Image -> option bool -> bool -> Image;
  skin_to_face : Image -> option bool -> bool -> Image
}.

(** ** [main.py] *)

(** The classes that derive from [ValueError], by class name:
    [binascii.Error] (its own constructor of [Exn]), the [UnicodeError]
    family, [json.JSONDecodeError], [io.UnsupportedOperation],
    [ssl.SSLCertVerificationError] and the two of [ipaddress].  The other
    classes that an [except] clause of [main.py] names ([UrlError],
    [ImageSizeError], [UnknownPlayerError], [UnidentifiedImageError],
    [binascii.Error], [JSONDecodeError], [KeyError], [FileNotFoundError])
    have no subclass among the exceptions. *)
Definition ValueError_subclasses : list string :=
  ["UnicodeError"; "UnicodeDecodeError"; "UnicodeEncodeError";
   "UnicodeTranslateError"; "JSONDecodeError"; "UnsupportedOperation";
   "SSLCertVerificationError"; "AddressValueError"; "NetmaskValueError"].

(** [isinstance(e, cls)] for a raised [e] and the class [cls] of an
    [except] clause. *)
Definition isinstance (e cls : Exn) : bool :=
  bool_decide (e = cls) ||
  match cls, e with
  | ValueError, binascii_Error => true
  | ValueError, OtherError name => bool_decide (name ∈ ValueError_subclasses)
  | _, _ => false
  end.

(** [except exn: k]: the clause takes the exceptions of class [exn] and
    of its subclasses. *)
Definition except_ {R A} (exn : Exn) (k : Body R A) (e : Exn)
  : option (Body R A) :=
  if isinstance e exn then Some k else None.

(** Two [except] clauses of one [try]. *)
Definition orelse {R A} (h1 h2 : Exn -> option (Body R A)) (e : Exn)
  : option (Body R A) :=
  match h1 e with
  | Some k => Some k
  | None => h2 e
  end.

(** Lines 113-123: the file name of the cached render. *)
Definition cache_filename (filename : str) (overlay : bool)
    (margin upscale : Z) : str :=
  let filename := Py.item_0 (Py.rsplit1 "." filename) in
  let filename := if overlay then filename ++ lit "o" else filename in
  let filename :=
    if bool_decide (margin > 0) then filename ++ lit "m" ++ str_int margin
    else filename in
  let filename :=
    if bool_decide (upscale > 1) then filename ++ lit "u" ++ str_int upscale
    else filename in
  filename ++ lit ".png".

(** Lines 162-165. *)
Definition margin_step (image : Image) (margin : Z) : Image :=
  if bool_decide (margin > 0) then
    let new := PIL.new RGBA (width image + margin + margin,
                             height image + margin + margin) in
    PIL.paste new image (margin, margin)
  else image.

(** Lines 166-167. *)
Definition upscale_step (image : Image) (upscale : Z) : Image :=
  if bool_decide (upscale > 1) then
    PIL.resize_NEAREST image (width image * upscale, height image * upscale)
  else image.

(** [template_args]: the values the query layer lets through. [None] is
    an absent string parameter; an absent [margin] is 0 and an absent
    [upscale] is 1, a given one lies in its [ge]..[le] range. *)
Record Args := mkArgs {
  player_name : option str;
  skin_url : option str;
  skin_base64 : option str;
  slim : bool;
  overlay : bool;
  margin : Z;
  upscale : Z
}.

Definition max_length (n : Z) (s : option str) : Prop :=
  Z.of_nat (length (text s)) <= n.

Definition template_args (a : Args) : Prop :=
  max_length 16 (player_name a) /\
  max_length 128 (skin_url a) /\
  max_length (16 * 1024) (skin_base64 a) /\
  (margin a = 0 \/ 1 <= margin a <= 8) /\
  (upscale a = 1 \/ 2 <= upscale a <= 8).

Global Instance template_args_dec a : Decision (template_args a).
Proof. unfold template_args, max_length. apply _. Defined.

Section Template.

Variable E : Env.

Definition skin_url_from_player (player_name : str)
  : Body (str * bool) (str * bool) :=
  _ ← log (EvLookup player_name);
  r ← answer (profile E player_name);
  return_ r.

Definition skin_from_url (skin_url : str) : Body Image Image :=
  file ← try_except
    (_ ← log (EvFetch skin_url); answer (urlopen E skin_url))
    (except_ ValueError (raise UrlError));
  image ← try_except
    (im ← answer (Image_open E file); ret (PIL.convert im RGBA))
    (except_ UnidentifiedImageError (raise UrlError));
  let image :=
    if decide (size image = (64, 32)) then old_to_new_skin E image
    else image in
  if decide (size image ≠ (64, 64)) then raise ImageSizeError
  else return_ image.

(** Lines 100-111: the slice of the source that names the cache file,
    with the link and the slim flag of a player lookup (unbound for
    the other sources, where they are not read). *)
Definition source_filename (player skin_url skin_base64 : option str)
  : Body Response (str * str * bool) :=
  if truthy player then
    try_except
      ('(url, pot_slim) ← call (skin_url_from_player (text player));
       let filename := Py.slice (Py.item_last (Py.split "/" url)) (-16) (-1) in
       ret (filename, url, pot_slim))
      (except_ UnknownPlayerError
         (return_ (HTTPException 404 "Unknown player")))
  else if truthy skin_url then
    let filename :=
      Py.slice (Py.item_last (Py.split "/" (text skin_url))) (-16) (-1) in
    ret (filename, [], false)
  else if truthy skin_base64 then
    let filename := Py.slice (text skin_base64) (-16) (-1) in
    ret (filename, [], false)
  else
    return_ (HTTPException 404
      "You must specify a Player Name, Skin URL or Skin File.").

(** Lines 132-159: the skin of a cache miss, with the slim flag. *)
Definition source_skin (player skin_url skin_base64 : option str)
    (url : str) (pot_slim : bool) (slim : option bool)
  : Body Response (Image * option bool) :=
  if truthy player then
    try_except
      (skin ← try_except (call (skin_from_url url))
         (orelse
            (except_ UrlError (return_ (HTTPException 404 "Invalid URL")))
            (except_ ImageSizeError
               (return_ (HTTPException 404
                  "Image must be 64x64 pixels large"))));
       let slim := if decide (slim = None) then Some pot_slim else slim in
       ret (skin, slim))
      (except_ UnknownPlayerError
         (return_ (HTTPException 404 "Unknown player")))
  else if truthy skin_url then
    skin ← try_except (call (skin_from_url (text skin_url)))
      (orelse
         (except_ UrlError (return_ (HTTPException 404 "Invalid URL")))
         (except_ ImageSizeError
            (return_ (HTTPException 404
               "Image must be 64x64 pixels large"))));
    ret (skin, slim)
  else if truthy skin_base64 then
    b ← try_except (answer (b64decode E (text skin_base64 ++ lit "=")))
      (except_ binascii_Error (answer (b64decode E (text skin_base64))));
    skin ← try_except (answer (Image_open E b))
      (except_ UrlError
         (return_ (HTTPException 404 "Invalid File, must be Image")));
    ret (skin, slim)
  else raise (OtherError "UnboundLocalError").

(** Lines 125-128: the cache directory of a route and the file of a
    render in it. *)
Definition pot_path (path : str) : str :=
  Path.div (lit (if decide (os_name E = "nt") then "" else "/") ++ lit "tmp")
           path.

Definition pot_file (path filename : str) : str :=
  Path.div (pot_path path) filename.

Definition api_template
    (render_function : Image -> option bool -> bool -> Image)
    (path : str) (player skin_url skin_base64 : option str)
    (slim : option bool) (overlay : bool) (margin upscale : Z)
  : Body Response Response :=
  '(filename, url, pot_slim) ← source_filename player skin_url skin_base64;
  let filename := cache_filename filename overlay margin upscale in
  hit ← Path.is_file (pot_file path filename);
  image ←
    (if hit : bool then Image_open_file (pot_file path filename)
     else
       '(skin, slim) ←
         source_skin player skin_url skin_base64 url pot_slim slim;
       _ ← log (EvRender skin slim overlay);
       let image := render_function skin slim overlay in
       let image := margin_step image margin in
       let image := upscale_step image upscale in
       _ ← try_except (Image_save image (pot_file path filename))
         (except_ FileNotFoundError
            (_ ← Path.mkdir (pot_path path);
             Image_save image (pot_file path filename)));
       ret image);
  return_ (StreamingResponse image "image/png").

(** The three routes. *)
Definition route (render_function : Image -> option bool -> bool -> Image)
    (path : str) (a : Args) : Body Response Response :=
  api_template render_function path (player_name a) (skin_url a)
    (skin_base64 a) (Some (slim a)) (overlay a) (margin a) (upscale a).

Definition skin : Args -> Body Response Response :=
  route (fun x _ _ => x) (lit "skins/").
Definition portrait : Args -> Body Response Response :=
  route (skin_to_portrait E) (lit "portraits/").
Definition face : Args -> Body Response Response :=
  route (skin_to_face E) (lit "profiles/").

(** The value of [filename] at line 123 of [api_template], for the
    requests that get that far. *)
Definition key_of (player skin_url skin_base64 : option str)
    (overlay : bool) (margin upscale : Z) (w : World) : option str :=
  match source_filename player skin_url skin_base64 w with
  | (Val (filename, _, _), _) =>
      Some (cache_filename filename overlay margin upscale)
  | _ => None
  end.

End Template.

(** ** Reference definitions used in the statements *)

Module Spec.

(** All but the last element, and the last [n] elements. *)
Definition drop_last {A} (s : list A) : list A :=
  take (length s - 1)%nat s.

Definition last_n {A} (n : nat) (s : list A) : list A :=
  drop (length s - n)%nat s.

(** The text before the last ['.'], the whole text when there is none. *)
Fixpoint strip_extension (s : str) : str :=
  match s with
  | [] => []
  | c :: s' =>
      if bool_decide ("."%char ∈ s') then c :: strip_extension s'
      else if decide (c = "."%char) then []
      else c :: strip_extension s'
  end.

(** The key as section 4.2 words it: the tail, then [o], [m<margin>],
    [u<upscale>] for the options that are set, then [.png]. *)
Definition deriveKey (tail : str) (overlay : bool) (margin upscale : Z)
  : str :=
  tail
  ++ (if overlay then lit "o" else [])
  ++ (if bool_decide (margin > 0) then lit "m" ++ str_int margin else [])
  ++ (if bool_decide (upscale > 1) then lit "u" ++ str_int upscale else [])
  ++ lit ".png".

(** The final path segment of the source's link, or the inline
    payload: what the identifier tail is cut from. *)
Definition source_segment (E : Env)
    (player skin_url skin_base64 : option str) : option str :=
  if truthy player then
    match profile E (text player) with
    | inr (url, _) => Some (Py.item_last (Py.split "/" url))
    | inl _ => None
    end
  else if truthy skin_url then
    Some (Py.item_last (Py.split "/" (text skin_url)))
  else if truthy skin_base64 then Some (text skin_base64)
  else None.

Definition is_digit (c : ascii) : Prop := is_Some (Ascii.is_nat c).

(** The bytes of an inline payload as section 4.5 words it: decode with
    an appended padding character, and on a decoding failure decode the
    payload as it is. *)
Definition decode_inline (E : Env) (payload : str) : Exn + bytes :=
  match b64decode E (payload ++ lit "=") with
  | inl e => if decide (e = binascii_Error) then b64decode E payload
             else inl e
  | inr b => inr b
  end.

(** The alphabet of base64 text. *)
Definition base64_char (c : ascii) : bool :=
  let n := nat_of_ascii c in
  (bool_decide (65 <= n <= 90)%nat || bool_decide (97 <= n <= 122)%nat
   || bool_decide (48 <= n <= 57)%nat
   || bool_decide (c = "+"%char) || bool_decide (c = "/"%char)
   || bool_decide (c = "="%char))%bool.

End Spec.

(** ** Sample collaborators and requests *)

Module Sample.

Definition red : Pixel := (255, 0, 0, 255).

(** A 2 x 1 RGB image, a legacy skin, a modern skin, an oversized one. *)
Definition tiny : Image :=
  {| mode := RGB; width := 2; height := 1; raster := [[red; transparent]] |}.
Definition legacy : Image :=
  {| mode := P; width := 64; height := 32;
     raster := raster_of 64 32 (fun x y => (x, y, 0, 255)) |}.
Definition modern : Image :=
  {| mode := RGBA; width := 64; height := 64;
     raster := raster_of 64 64 (fun x y => (x, y, 7, 255)) |}.
Definition poster : Image :=
  {| mode := RGB; width := 100; height := 100;
     raster := raster_of 100 100 (fun x y => (x, y, 9, 255)) |}.

Definition skin_link : str :=
  lit "http://textures.minecraft.net/texture/0123456789abcdef0123456789abcdef".

Definition env : Env :=
  {| os_name := "posix";
     profile := fun name =>
       if decide (name = lit "Notch") then inr (skin_link, false)
       else inl UnknownPlayerError;
     urlopen := fun url =>
       if decide (url = skin_link) then inr [Byte.x02]
       else if decide (url = lit "http://example.org/skins/legacy.png")
       then inr [Byte.x01]
       else if decide (url = lit "http://example.org/skins/poster.png")
       then inr [Byte.x03]
       else if decide (url = lit "http://example.org/notes.txt")
       then inr [Byte.x00]
       else inl ValueError;
     Image_open := fun b =>
       if decide (b = [Byte.x01]) then inr legacy
       else if decide (b = [Byte.x02]) then inr modern
       else if decide (b = [Byte.x03]) then inr poster
       else if decide (b = [Byte.x04]) then inr tiny
       else inl UnidentifiedImageError;
     b64decode := fun s =>
       if decide (s = lit "AQ===") then inr [Byte.x01]
       else if decide (s = lit "Aw===") then inr [Byte.x03]
       else if decide (s = lit "BA===") then inr [Byte.x04]
       else if decide (s = lit "AAAA=") then inr [Byte.x00; Byte.x00; Byte.x00]
       else inl binascii_Error;
     old_to_new_skin := fun im =>
       PIL.paste (PIL.new RGBA (64, 64)) im (0, 0);
     skin_to_portrait := fun im _ _ => im;
     skin_to_face := fun im _ _ => im |}.

(** An empty cache whose directories exist. *)
Definition world : World :=
  {| files := ∅;
     dirs := {[ lit "/tmp"; lit "/tmp/skins" ]};
     trace := [] |}.

End Sample.

(** ** The profile lookup in detail *)

(** Parsed JSON, as [json.loads] hands it back: [None], [bool], [int],
    [str], [list] and [dict] (a [dict] by its items; numbers are taken
    to be integers). *)
Module Json.

#[warnings="-register-all"]
Inductive value :=
  | Null
  | Bool (b : bool)
  | Num (n : Z)
  | Str (s : str)
  | Arr (l : list value)
  | Obj (items : list (str * value)).

(** Python truthiness, as [not id_json] reads it. *)
Definition truthy (v : value) : bool :=
  match v with
  | Null => false
  | Bool b => b
  | Num n => negb (n =? 0)
  | Str s => negb (bool_decide (s = []))
  | Arr l => negb (bool_decide (l = []))
  | Obj items => negb (bool_decide (items = []))
  end.

Definition KeyError : Exn := OtherError "KeyError".
Definition TypeError : Exn := OtherError "TypeError".
Definition IndexError : Exn := OtherError "IndexError".
Definition JSONDecodeError : Exn := OtherError "JSONDecodeError".

Fixpoint assoc (key : str) (items : list (str * value)) : option value :=
  match items with
  | [] => None
  | (k, v) :: rest => if decide (k = key) then Some v else assoc key rest
  end.

(** [v[key]] for a string key. *)
Definition getitem (v : value) (key : string) : Exn + value :=
  match v with
  | Obj items =>
      match assoc (lit key) items with
      | Some x => inr x
      | None => inl KeyError
      end
  | _ => inl TypeError
  end.

(** [v[0]]. *)
Definition getitem_0 (v : value) : Exn + value :=
  match v with
  | Arr (x :: _) => inr x
  | Arr [] => inl IndexError
  | Str (c :: _) => inr (Str [c])
  | Str [] => inl IndexError
  | Obj _ => inl KeyError
  | _ => inl TypeError
  end.

(** [prefix + v] for a string literal [prefix]. *)
Definition concat (prefix : string) (v : value) : Exn + str :=
  match v with
  | Str s => inr (lit prefix ++ s)
  | _ => inl TypeError
  end.

(** [v == text]. *)
Definition eq_str (v : value) (text : string) : bool :=
  match v with
  | Str s => bool_decide (s = lit text)
  | _ => false
  end.

End Json.

(** What [json.loads] is given: the bytes of a response, or text. *)
Inductive Document :=
  | OfBytes (b : bytes)
  | OfStr (s : str).

(** The parser and the text decoder, as [main.py] sees them. *)
Record Codec := mkCodec {
  loads : Document -> Exn + Json.value;
  decode_utf8 : bytes -> Exn + str
}.

Module Lookup.

Definition name_endpoint : string :=
  "https://api.mojang.com/users/profiles/minecraft/".
Definition profile_endpoint : string :=
  "https://sessionserver.mojang.com/session/minecraft/profile/".

(** [urlopen(url).read()]. *)
Definition read {R} (E : Env) (url : str) : Body R bytes :=
  _ ← log (EvFetch url); answer (urlopen E url).

(** [b64decode(data)] for a parsed value: text only. *)
Definition b64decode_value (E : Env) (data : Json.value) : Exn + bytes :=
  match data with
  | Json.Str s => b64decode E s
  | _ => inl Json.TypeError
  end.

(** Lines 29-56, request by request and subscript by subscript. *)
Definition skin_url_from_player (E : Env) (C : Codec) (player_name : str)
  : Body (Json.value * bool) (Json.value * bool) :=
  id_json ← try_except
    (b ← read E (lit name_endpoint ++ player_name);
     answer (loads C (OfBytes b)))
    (except_ Json.JSONDecodeError (raise UnknownPlayerError));
  if negb (Json.truthy id_json) then raise UnknownPlayerError
  else
    id ← answer (Json.getitem id_json "id");
    url ← answer (Json.concat profile_endpoint id);
    b ← read E url;
    data_json ← answer (loads C (OfBytes b));
    properties ← answer (Json.getitem data_json "properties");
    property ← answer (Json.getitem_0 properties);
    data ← answer (Json.getitem property "value");
    raw ← answer (b64decode_value E data);
    decoded ← answer (decode_utf8 C raw);
    decoded_json ← answer (loads C (OfStr decoded));
    textures ← answer (Json.getitem decoded_json "textures");
    SKIN ← answer (Json.getitem textures "SKIN");
    link ← answer (Json.getitem SKIN "url");
    slim ← try_except
      (textures ← answer (Json.getitem decoded_json "textures");
       SKIN ← answer (Json.getitem textures "SKIN");
       metadata ← answer (Json.getitem SKIN "metadata");
       model ← answer (Json.getitem metadata "model");
       ret (Json.eq_str model "slim"))
      (except_ Json.KeyError (ret false));
    return_ (link, slim).

(** The texture document of a profile, and the profile that embeds it. *)
Definition textures_doc (link : str) (model : option str) : Json.value :=
  Json.Obj
    [(lit "textures",
      Json.Obj
        [(lit "SKIN",
          Json.Obj
            ((lit "url", Json.Str link)
             :: match model with
                | Some m =>
                    [(lit "metadata", Json.Obj [(lit "model", Json.Str m)])]
                | None => []
                end))])].

Definition profile_doc (encoded : str) : Json.value :=
  Json.Obj
    [(lit "properties",
      Json.Arr [Json.Obj [(lit "name", Json.Str (lit "textures"));
                          (lit "value", Json.Str encoded)]])].

End Lookup.

(** ** World updates and the normalisation of lines 74-80 *)

Definition add_event (ev : Event) (w : World) : World :=
  {| files := files w; dirs := dirs w; trace := trace w ++ [ev] |}.

Definition add_file (p : str) (im : Image) (w : World) : World :=
  {| files := <[p := im]> (files w); dirs := dirs w; trace := trace w |}.

Definition add_dir (p : str) (w : World) : World :=
  {| files := files w; dirs := {[p]} ∪ dirs w; trace := trace w |}.

(** What [skin_from_url] makes of a decoded image before the size check. *)
Definition normalize (E : Env) (im : Image) : Image :=
  let image := PIL.convert im RGBA in
  if decide (size image = (64, 32)) then old_to_new_skin E image else image.

(** Lines 161-167 in one piece. *)
Definition rendered (render_function : Image -> option bool -> bool -> Image)
    (skin : Image) (slim : option bool) (overlay : bool) (margin upscale : Z)
  : Image :=
  upscale_step (margin_step (render_function skin slim overlay) margin) upscale.

(** The [except] clauses around [skin_from_url] in the template. *)
Definition link_failure (e : Exn) : Result Response (Image * option bool) :=
  if decide (e = UrlError) then Ret (HTTPException 404 "Invalid URL")
  else if decide (e = ImageSizeError)
  then Ret (HTTPException 404 "Image must be 64x64 pixels large")
  else Exc e.

(** [url.split('/')[-1][-16:-1]], lines 103 and 107. *)
Definition link_name (url : str) : str :=
  Py.slice (Py.item_last (Py.split "/" url)) (-16) (-1).

(** ** More sample collaborators *)

Module Sample2.

Definition id : str := lit "069a79f444e94726a5befca90e38aaf5".
Definition encoded : str := lit "eyJ0ZXh0dXJlcyI6e319".
Definition raw : bytes := [Byte.x7b; Byte.x7d].
Definition decoded : str := lit "{}".

Definition name_url (player_name : string) : str :=
  lit Lookup.name_endpoint ++ lit player_name.

(** The name service knows [Notch], answers [Nobody] with an empty body,
    [Broken] with an error document and refuses [Ghost]; the link
    [missing.png] is refused as well. *)
Definition env : Env :=
  {| os_name := "posix";
     profile := profile Sample.env;
     urlopen := fun url =>
       if decide (url = name_url "Notch") then inr [Byte.x10]
       else if decide (url = name_url "Nobody") then inr []
       else if decide (url = name_url "Broken") then inr [Byte.x13]
       else if decide (url = lit Lookup.profile_endpoint ++ id)
       then inr [Byte.x11]
       else inl (OtherError "HTTPError");
     Image_open := Image_open Sample.env;
     b64decode := fun s =>
       if decide (s = encoded) then inr raw else inl binascii_Error;
     old_to_new_skin := old_to_new_skin Sample.env;
     skin_to_portrait := skin_to_portrait Sample.env;
     skin_to_face := skin_to_face Sample.env |}.

Definition codec : Codec :=
  {| loads := fun d =>
       match d with
       | OfBytes b =>
           if decide (b = [Byte.x10])
           then inr (Json.Obj [(lit "id", Json.Str id);
                               (lit "name", Json.Str (lit "Notch"))])
           else if decide (b = [Byte.x13])
           then inr (Json.Obj [(lit "error", Json.Str (lit "Not Found"))])
           else if decide (b = [Byte.x11])
           then inr (Lookup.profile_doc encoded)
           else inl Json.JSONDecodeError
       | OfStr s =>
           if decide (s = decoded)
           then inr (Lookup.textures_doc Sample.skin_link (Some (lit "slim")))
           else inl Json.JSONDecodeError
       end;
     decode_utf8 := fun b =>
       if decide (b = raw) then inr decoded
       else inl (OtherError "UnicodeDecodeError") |}.

Definition legacy_link : str := lit "http://example.org/skins/legacy.png".

(** A cache that holds a render for [legacy.png]; a disk where the cache
    directory of the route is missing; a disk without [/tmp]. *)
Definition cached : World :=
  add_file (lit "/tmp/skins/legacyo.png") Sample.modern Sample.world.

Definition link_args : Args :=
  {| player_name := None; skin_url := Some legacy_link; skin_base64 := None;
     slim := false; overlay := true; margin := 4; upscale := 2 |}.

Definition player_args : Args :=
  {| player_name := Some (lit "Notch"); skin_url := None; skin_base64 := None;
     slim := true; overlay := true; margin := 0; upscale := 1 |}.

End Sample2.

(** A network as [Sample2.env], where in addition a [data:] link with
    malformed base64 text makes [urlopen] raise [binascii.Error], and the
    name service answers [Mojibake] with a byte that is not UTF-8 and
    [Nil] with the document [null]. *)
Module Sample3.

Definition data_link : str := lit "data:image/png;base64,A".

Definition env : Env :=
  {| os_name := "posix";
     profile := profile Sample.env;
     urlopen := fun url =>
       if decide (url = data_link) then inl binascii_Error
       else if decide (url = Sample2.name_url "Mojibake") then inr [Byte.xff]
       else if decide (url = Sample2.name_url "Nil") then inr [Byte.x14]
       else urlopen Sample2.env url;
     Image_open := Image_open Sample.env;
     b64decode := b64decode Sample2.env;
     old_to_new_skin := old_to_new_skin Sample.env;
     skin_to_portrait := skin_to_portrait Sample.env;
     skin_to_face := skin_to_face Sample.env |}.

Definition codec : Codec :=
  {| loads := fun d =>
       match d with
       | OfBytes b =>
           if decide (b = [Byte.xff])
           then inl (OtherError "UnicodeDecodeError")
           else if decide (b = [Byte.x14]) then inr Json.Null
           else loads Sample2.codec d
       | OfStr _ => loads Sample2.codec d
       end;
     decode_utf8 := decode_utf8 Sample2.codec |}.


End Sample3.

(** ** The framework boundary *)

Module FastAPI.

(** What the client is sent for the outcome of a path operation.  A
    returned response object (here [StreamingResponse]) is sent as it is,
    with its status 200.  Any other returned value is encoded as JSON and
    sent with status 200; that includes an [HTTPException] object, whose
    attributes [status_code] and [detail] (and [headers], which is
    [None] here) become members of the JSON body: the framework answers
    with the status of an [HTTPException] only when it is raised.  An exception that leaves the operation is
    answered with status 500. *)
Inductive Sent :=
  | SentImage (status : Z) (content : Image) (media_type : string)
  | SentJson (status : Z) (status_code : Z) (detail : string)
  | SentServerError (status : Z).


Definition status (s : Sent) : Z :=
  match s with
  | SentImage status _ _ | SentJson status _ _ | SentServerError status =>
      status
  end.

End FastAPI.

(** * Properties *)

(** ** Rasters and the Pillow operations *)

Lemma raster_of_lookup W H f x y :
  0 <= x < W -> 0 <= y < H ->
  (row ← raster_of W H f !! Z.to_nat y; row !! Z.to_nat x) = Some (f x y).
Proof.
  intros Hx Hy. unfold raster_of.
  rewrite list_lookup_fmap.
  rewrite (lookup_seqZ_lt 0 H (Z.to_nat y)) by lia. simpl.
  rewrite list_lookup_fmap.
  rewrite (lookup_seqZ_lt 0 W (Z.to_nat x)) by lia. simpl.
  f_equal. f_equal; lia.
Qed.

Lemma raster_of_ok m W H f :
  0 <= W -> 0 <= H ->
  image_ok {| mode := m; width := W; height := H; raster := raster_of W H f |}.
Proof.
  intros HW HH. unfold image_ok, raster_of. simpl.
  repeat split; try lia.
  - by rewrite length_fmap, length_seqZ.
  - apply Forall_fmap, Forall_forall. intros y _. simpl.
    by rewrite length_fmap, length_seqZ.
Qed.

Lemma getpixel_in_range im x y :
  image_ok im -> 0 <= x < width im -> 0 <= y < height im ->
  is_Some (getpixel im x y).
Proof.
  intros (_ & _ & Hlen & Hrows) Hx Hy. unfold getpixel.
  rewrite bool_decide_eq_true_2 by lia.
  destruct (raster im !! Z.to_nat y) as [row|] eqn:Hrow.
  - simpl. apply lookup_lt_is_Some.
    rewrite Forall_forall in Hrows.
    rewrite (Hrows row) by (eapply list_elem_of_lookup_2; eauto). lia.
  - apply lookup_ge_None in Hrow. lia.
Qed.

Lemma getpixel_raster_of m W H f x y :
  getpixel {| mode := m; width := W; height := H; raster := raster_of W H f |} x y
  = if bool_decide (0 <= x < W /\ 0 <= y < H) then Some (f x y) else None.
Proof.
  unfold getpixel. cbn [raster].
  case_bool_decide as Hpos; case_bool_decide as Hin; try lia.
  - apply raster_of_lookup; lia.
  - unfold raster_of. rewrite list_lookup_fmap.
    destruct (decide (y < H)) as [Hy|Hy].
    + rewrite (lookup_seqZ_lt 0 H (Z.to_nat y)) by lia. simpl.
      rewrite list_lookup_fmap, lookup_seqZ_ge; [done|lia].
    + rewrite lookup_seqZ_ge; [done|lia].
  - done.
Qed.

Lemma nearest_scale n u x :
  0 < n -> 0 < u -> 0 <= x -> PIL.nearest n (n * u) x = x `div` u.
Proof.
  intros Hn Hu Hx. unfold PIL.nearest.
  replace (2 * (n * u)) with ((2 * u) * n) by lia.
  rewrite Z.div_mul_cancel_r by lia.
  symmetry. apply (Z.div_unique_pos _ _ _ (2 * (x `mod` u) + 1)).
  - pose proof (Z.mod_pos_bound x u Hu). lia.
  - pose proof (Z.div_mod x u ltac:(lia)). lia.
Qed.

Lemma getpixel_new m W H x y :
  0 <= x < W -> 0 <= y < H -> getpixel (PIL.new m (W, H)) x y = Some transparent.
Proof.
  intros Hx Hy. unfold PIL.new. cbn [fst snd].
  by rewrite getpixel_raster_of, bool_decide_eq_true_2 by lia.
Qed.

Lemma getpixel_paste_inside dst src ox oy x y :
  0 <= x < width dst -> 0 <= y < height dst ->
  ox <= x < ox + width src -> oy <= y < oy + height src ->
  getpixel (PIL.paste dst src (ox, oy)) x y =
  Some (default (default transparent (getpixel dst x y))
          (getpixel src (x - ox) (y - oy))).
Proof.
  intros Hx Hy Hbx Hby. unfold PIL.paste.
  rewrite getpixel_raster_of, bool_decide_eq_true_2 by lia.
  cbv zeta. by rewrite bool_decide_eq_true_2 by lia.
Qed.

Lemma getpixel_paste_outside dst src ox oy x y :
  0 <= x < width dst -> 0 <= y < height dst ->
  ~ (ox <= x < ox + width src /\ oy <= y < oy + height src) ->
  getpixel (PIL.paste dst src (ox, oy)) x y =
  Some (default transparent (getpixel dst x y)).
Proof.
  intros Hx Hy Hout. unfold PIL.paste.
  rewrite getpixel_raster_of, bool_decide_eq_true_2 by lia.
  cbv zeta. by rewrite bool_decide_eq_false_2 by done.
Qed.

(** ** Python strings *)

(** Membership in a list that is given by its elements. *)
Ltac membership :=
  rewrite ?not_elem_of_cons, ?elem_of_cons, ?elem_of_nil in *;
  intuition (subst; try congruence; eauto).

Lemma lit_inj s1 s2 : lit s1 = lit s2 -> s1 = s2.
Proof.
  unfold lit. intros H.
  rewrite <- (String.string_of_list_ascii_of_string s1),
          <- (String.string_of_list_ascii_of_string s2).
  by rewrite H.
Qed.

Lemma str_int_inj m n : str_int m = str_int n -> m = n.
Proof. intros H%lit_inj. by apply (inj pretty). Qed.

Lemma slice_16_1 {A} (s : list A) :
  Py.slice s (-16) (-1) = Spec.last_n 15 (Spec.drop_last s).
Proof.
  unfold Py.slice, Py.norm_index, Spec.last_n, Spec.drop_last. simpl.
  rewrite take_drop_commute, length_take.
  f_equal; [|f_equal]; lia.
Qed.



Lemma elem_of_slice {A} (s : list A) a b x : x ∈ Py.slice s a b -> x ∈ s.
Proof.
  unfold Py.slice. intros H.
  by apply subseteq_take, subseteq_drop in H.
Qed.

Lemma split_nonempty sep s : Py.split sep s <> [].
Proof.
  destruct s as [|c s]; simpl; [done|].
  case_decide; [done|]. by destruct (Py.split sep s).
Qed.

Lemma sep_not_in_last_segment sep s : sep ∉ Py.item_last (Py.split sep s).
Proof.
  unfold Py.item_last.
  induction s as [|c s IH]; simpl.
  - membership.
  - pose proof (split_nonempty sep s) as Hne.
    case_decide as Hc.
    + destruct (Py.split sep s) as [|w ws] eqn:Hs; [done|]. 
      by rewrite last_cons_cons.
    + destruct (Py.split sep s) as [|w ws] eqn:Hs; [done|].
      destruct ws as [|w' ws].
      * simpl in *. membership.
      * by rewrite last_cons_cons in *.
Qed.

Lemma cut_first_None sep s : Py.cut_first sep s = None -> sep ∉ s.
Proof.
  induction s as [|c s IH]; simpl; [membership|].
  case_decide; [done|]. destruct (Py.cut_first sep s) as [[a b]|]; [done|].
  intros _. specialize (IH eq_refl). membership.
Qed.

Lemma cut_first_Some sep s a b :
  Py.cut_first sep s = Some (a, b) -> s = a ++ sep :: b /\ sep ∉ a.
Proof.
  revert a. induction s as [|c s IH]; intros a; simpl; [done|].
  case_decide as Hc.
  - intros [= <- <-]. subst. split; [done|membership].
  - destruct (Py.cut_first sep s) as [[a' b']|]; [|done].
    intros [= <- <-]. destruct (IH a' eq_refl) as [-> Hn].
    split; [done|membership].
Qed.

Lemma strip_extension_no_dot s : "."%char ∉ s -> Spec.strip_extension s = s.
Proof.
  induction s as [|c s IH]; [done|]. intros Hn.
  cbn [Spec.strip_extension].
  rewrite bool_decide_eq_false_2 by membership.
  destruct (decide (c = "."%char)); [membership|].
  f_equal. apply IH. membership.
Qed.

Lemma strip_extension_app a b :
  "."%char ∉ b -> Spec.strip_extension (a ++ "."%char :: b) = a.
Proof.
  intros Hb. induction a as [|c a IH]; cbn [Spec.strip_extension app].
  - rewrite bool_decide_eq_false_2 by done. by destruct (decide _).
  - rewrite bool_decide_eq_true_2; [by rewrite IH|].
    apply elem_of_app. right. apply list_elem_of_here.
Qed.

Lemma rsplit1_item_0 s : Py.item_0 (Py.rsplit1 "." s) = Spec.strip_extension s.
Proof.
  unfold Py.rsplit1, Py.item_0.
  destruct (Py.cut_first "." (rev s)) as [[a b]|] eqn:Hcut; simpl.
  - apply cut_first_Some in Hcut as [Hrev Hn].
    assert (s = rev b ++ "."%char :: rev a) as ->.
    { rewrite <- (rev_involutive s), Hrev, rev_app_distr. simpl.
      by rewrite <- app_assoc. }
    rewrite strip_extension_app; [done|].
    intros Hin. apply Hn. by apply list_elem_of_In, in_rev, list_elem_of_In.
  - apply cut_first_None in Hcut. rewrite strip_extension_no_dot; [done|].
    intros Hin. apply Hcut. by apply list_elem_of_In, in_rev, list_elem_of_In in Hin.
Qed.

Lemma elem_of_strip_extension s x : x ∈ Spec.strip_extension s -> x ∈ s.
Proof.
  induction s as [|c s IH]; [done|]. cbn [Spec.strip_extension].
  case_bool_decide; [|destruct (decide _)]; membership.
Qed.

Lemma cache_filename_deriveKey filename overlay margin upscale :
  cache_filename filename overlay margin upscale =
  Spec.deriveKey (Spec.strip_extension filename) overlay margin upscale.
Proof.
  unfold cache_filename, Spec.deriveKey. rewrite rsplit1_item_0.
  destruct overlay; repeat case_bool_decide; by rewrite <- ?app_assoc, ?app_nil_r.
Qed.

(** *** The characters of [str(n)] *)

Lemma pretty_N_char_digit x : Spec.is_digit (pretty_N_char x).
Proof. unfold Spec.is_digit, pretty_N_char. repeat case_match; eauto. Qed.

Lemma pretty_N_go_chars x s c :
  c ∈ lit (pretty_N_go x s) -> Spec.is_digit c \/ c ∈ lit s.
Proof.
  revert s. induction (N.lt_wf_0 x) as [x _ IH]; intros s Hc.
  destruct (decide (x = 0%N)) as [->|Hx].
  - rewrite pretty_N_go_0 in Hc. by right.
  - rewrite pretty_N_go_step in Hc by lia.
    apply IH in Hc; [|apply N.div_lt; lia].
    destruct Hc as [Hc|Hc]; [by left|].
    cbn in Hc. apply elem_of_cons in Hc as [->|Hc]; [|by right].
    left. apply pretty_N_char_digit.
Qed.

Lemma pretty_N_chars (x : N) c : c ∈ lit (pretty x) -> Spec.is_digit c.
Proof.
  unfold pretty, pretty_N. case_decide.
  - cbn. intros ->%list_elem_of_singleton. unfold Spec.is_digit. cbn. eauto.
  - intros [Hc|Hc]%pretty_N_go_chars; [done|]. cbn in Hc. by apply elem_of_nil in Hc.
Qed.

Lemma str_int_chars n c : c ∈ str_int n -> Spec.is_digit c \/ c = "-"%char.
Proof.
  unfold str_int, pretty, pretty_Z. destruct n as [|p|p].
  - cbn. intros ->%list_elem_of_singleton. left. unfold Spec.is_digit. cbn. eauto.
  - intros Hc. left. by apply (pretty_N_chars (Npos p)).
  - cbn. intros [->|Hc]%elem_of_cons; [by right|].
    left. by apply (pretty_N_chars (Npos p)).
Qed.

Lemma sep_not_in_str_int n : "/"%char ∉ str_int n.
Proof.
  intros [Hd| Hd]%str_int_chars; [|done].
  unfold Spec.is_digit in Hd. cbn in Hd. by destruct Hd.
Qed.

(** ** Running the function bodies *)

(** An [except] clause for a class other than [ValueError] takes that
    class only. *)
Lemma isinstance_exact e cls :
  cls <> ValueError -> isinstance e cls = bool_decide (e = cls).
Proof.
  intros Hcls. unfold isinstance.
  destruct cls; try done; by rewrite orb_false_r.
Qed.

Lemma if_isinstance {A} e cls (a b : A) :
  cls <> ValueError ->
  (if isinstance e cls then a else b) = (if decide (e = cls) then a else b).
Proof.
  intros Hcls. rewrite isinstance_exact by done.
  by case_bool_decide; destruct (decide _).
Qed.

Ltac body_unfold :=
  cbv [mbind mret Body_bind Body_ret bind ret return_ raise try_except call
       answer log except_ orelse].

Ltac exact_class := repeat (rewrite if_isinstance by discriminate).

Lemma source_filename_run E player skin_url skin_base64 w :
  exists tr,
    let w' := {| files := files w; dirs := dirs w; trace := trace w ++ tr |} in
    match Spec.source_segment E player skin_url skin_base64 with
    | Some seg => exists url pot_slim,
        source_filename E player skin_url skin_base64 w
        = (Val (Py.slice seg (-16) (-1), url, pot_slim), w')
    | None => exists r,
        source_filename E player skin_url skin_base64 w = (r, w') /\
        forall a, r <> Val a
    end.
Proof.
  unfold source_filename, Spec.source_segment.
  destruct (truthy player).
  - exists [EvLookup (text player)]. unfold skin_url_from_player. body_unfold.
    destruct (profile E (text player)) as [e|[url ps]].
    + exact_class. destruct (decide (e = UnknownPlayerError)); eexists; (split; [reflexivity|done]).
    + by exists url, ps.
  - exists []. rewrite app_nil_r. destruct w as [f d t]. cbn [files dirs trace].
    destruct (truthy skin_url); [by exists [], false|].
    destruct (truthy skin_base64); [by exists [], false|].
    eexists; (split; [reflexivity|done]).
Qed.

Lemma key_of_segment E player skin_url skin_base64 overlay margin upscale w :
  key_of E player skin_url skin_base64 overlay margin upscale w =
  (seg ← Spec.source_segment E player skin_url skin_base64;
   Some (cache_filename (Py.slice seg (-16) (-1)) overlay margin upscale)).
Proof.
  unfold key_of.
  destruct (source_filename_run E player skin_url skin_base64 w) as [tr Hrun].
  cbv zeta in Hrun.
  destruct (Spec.source_segment E player skin_url skin_base64) as [seg|].
  - destruct Hrun as (url & ps & ->). done.
  - destruct Hrun as (r & -> & Hr). destruct r as [a| |]; [by destruct (Hr a)|done..].
Qed.

Lemma source_filename_files E player skin_url skin_base64 w r w' :
  source_filename E player skin_url skin_base64 w = (r, w') ->
  files w' = files w /\ dirs w' = dirs w.
Proof.
  destruct (source_filename_run E player skin_url skin_base64 w) as [tr Hrun].
  cbv zeta in Hrun.
  destruct (Spec.source_segment E player skin_url skin_base64).
  - destruct Hrun as (? & ? & ->). by intros [= <- <-].
  - destruct Hrun as (? & -> & _). by intros [= <- <-].
Qed.

Lemma source_filename_ret E player skin_url skin_base64 w r w' :
  source_filename E player skin_url skin_base64 w = (Ret r, w') ->
  exists detail, r = HTTPException 404 detail.
Proof.
  unfold source_filename, skin_url_from_player. body_unfold.
  repeat (case_match; simplify_eq/=; try done); intros; simplify_eq; eauto.
Qed.

Lemma source_skin_ret E player skin_url skin_base64 url pot_slim slim w r w' :
  source_skin E player skin_url skin_base64 url pot_slim slim w = (Ret r, w') ->
  exists detail, r = HTTPException 404 detail.
Proof.
  unfold source_skin, skin_from_url. body_unfold.
  repeat (case_match; simplify_eq/=; try done); intros; simplify_eq; eauto.
Qed.

Lemma api_template_hit E render path player skin_url skin_base64 slim overlay
    margin upscale w filename url pot_slim w1 im :
  source_filename E player skin_url skin_base64 w
    = (Val (filename, url, pot_slim), w1) ->
  files w1 !! pot_file E path (cache_filename filename overlay margin upscale)
    = Some im ->
  api_template E render path player skin_url skin_base64 slim overlay margin
    upscale w = (Ret (StreamingResponse im "image/png"), w1).
Proof.
  intros Hsrc Hfile. unfold api_template. body_unfold. rewrite Hsrc.
  cbv [Path.is_file Image_open_file].
  rewrite bool_decide_eq_true_2 by (by rewrite Hfile).
  by rewrite Hfile.
Qed.

Lemma api_template_stores E render path player skin_url skin_base64 slim
    overlay margin upscale w im mt w' :
  api_template E render path player skin_url skin_base64 slim overlay margin
    upscale w = (Ret (StreamingResponse im mt), w') ->
  exists k, key_of E player skin_url skin_base64 overlay margin upscale w = Some k
    /\ files w' !! pot_file E path k = Some im.
Proof.
  unfold api_template, key_of. body_unfold.
  destruct (source_filename E player skin_url skin_base64 w)
    as [[[[filename url] pot_slim]| r |e] w1] eqn:Hsrc.
  2:{ apply source_filename_ret in Hsrc as [d ->]. done. }
  2:{ done. }
  set (file := pot_file E path (cache_filename filename overlay margin upscale)).
  cbv [Path.is_file Image_open_file Image_save Path.mkdir].
  case_bool_decide as Hhit.
  - destruct (files w1 !! file) as [im'|] eqn:Hf; [|done].
    intros [= -> <- <-]. eauto.
  - destruct (source_skin E player skin_url skin_base64 url pot_slim slim w1)
      as [[[skin slim']| r |e] w2] eqn:Hskin.
    + cbn [files dirs trace].
      repeat (case_bool_decide; simplify_eq/=; try done);
        intros; simplify_eq/=; eexists; (split; [done|]); by rewrite lookup_insert_eq.
    + apply source_skin_ret in Hskin as [d ->]. done.
    + done.
Qed.

Lemma source_skin_inline E payload url pot_slim slim w :
  truthy (Some payload) = true ->
  source_skin E None None (Some payload) url pot_slim slim w =
  match Spec.decode_inline E payload with
  | inl e => (Exc e, w)
  | inr b =>
      match Image_open E b with
      | inl e =>
          if decide (e = UrlError)
          then (Ret (HTTPException 404 "Invalid File, must be Image"), w)
          else (Exc e, w)
      | inr skin => (Val (skin, slim), w)
      end
  end.
Proof.
  intros Hp. unfold source_skin, Spec.decode_inline.
  cbn [truthy] in *. rewrite Hp.
  change (text (Some payload)) with payload. body_unfold.
  destruct (b64decode E (payload ++ lit "=")) as [e|b].
  - exact_class. destruct (decide (e = binascii_Error)); [|done].
    destruct (b64decode E payload) as [e'|b]; [done|].
    destruct (Image_open E b) as [e'|skin]; [|done].
    exact_class. by destruct (decide _).
  - destruct (Image_open E b) as [e'|skin]; [|done].
    exact_class. by destruct (decide _).
Qed.

Lemma deriveKey_overlay tail margin upscale :
  Spec.deriveKey tail true margin upscale <> Spec.deriveKey tail false margin upscale.
Proof.
  unfold Spec.deriveKey. intros H%(f_equal length).
  rewrite !length_app in H. cbn in H. lia.
Qed.

Lemma deriveKey_chars tail overlay margin upscale c :
  c ∈ Spec.deriveKey tail overlay margin upscale ->
  c ∈ tail \/ c ∈ lit "omu.png" \/ Spec.is_digit c \/ c = "-"%char.
Proof.
  unfold Spec.deriveKey. rewrite !elem_of_app.
  intros [H|[H|[H|[H|H]]]]; auto.
  - destruct overlay; [|by apply elem_of_nil in H].
    right; left. cbn in *. membership.
  - case_bool_decide; [|by apply elem_of_nil in H].
    apply elem_of_app in H as [H|H]; [right; left; cbn in *; membership|].
    apply str_int_chars in H. tauto.
  - case_bool_decide; [|by apply elem_of_nil in H].
    apply elem_of_app in H as [H|H]; [right; left; cbn in *; membership|].
    apply str_int_chars in H. tauto.
  - right; left. cbn in *. membership.
Qed.

(** * The claims *)

(** ** Skin normalisation *)

(** C1: for an image fetched and decoded from a skin link, [skin_from_url]
    converts it to RGBA, upgrades it with [old_to_new_skin] when it is
    exactly 64 x 32, and then returns it when its size is exactly 64 x 64
    and raises [ImageSizeError] otherwise; a returned image is RGBA.
    ([old_to_new_skin] comes from [renders]; it is assumed to hand back an
    RGBA image.) *)
Theorem skin_from_url_normalizes E skin_url file im w :
  urlopen E skin_url = inr file -> Image_open E file = inr im ->
  (size im = (64, 32) -> mode (old_to_new_skin E (PIL.convert im RGBA)) = RGBA) ->
  let image := PIL.convert im RGBA in
  let image :=
    if decide (size image = (64, 32)) then old_to_new_skin E image else image in
  let w' := {| files := files w; dirs := dirs w;
               trace := trace w ++ [EvFetch skin_url] |} in
  skin_from_url E skin_url w
  = (if decide (size image = (64, 64)) then Ret image else Exc ImageSizeError, w')
  /\ (size image = (64, 64) -> mode image = RGBA).
Proof.
  intros Hopen Himg Hmode. cbv zeta. split.
  - unfold skin_from_url. body_unfold. rewrite Hopen, Himg.
    repeat case_decide; try done.
  - intros _. case_decide as Hlegacy; [|done]. by apply Hmode.
Qed.

(** A legacy skin behind a link is upgraded and returned. *)
Lemma skin_from_url_normalizes_witness :
  let link := lit "http://example.org/skins/legacy.png" in
  let upgraded := old_to_new_skin Sample.env (PIL.convert Sample.legacy RGBA) in
  size Sample.legacy = (64, 32) /\
  skin_from_url Sample.env link Sample.world
  = (Ret upgraded,
     {| files := files Sample.world; dirs := dirs Sample.world;
        trace := trace Sample.world ++ [EvFetch link] |}) /\
  size upgraded = (64, 64) /\ mode upgraded = RGBA.
Proof.
  cbv zeta. split; [reflexivity|].
  destruct (skin_from_url_normalizes Sample.env
              (lit "http://example.org/skins/legacy.png") [Byte.x01]
              Sample.legacy Sample.world eq_refl eq_refl (fun _ => eq_refl))
    as [Hrun Hmode].
  split; [exact Hrun|]. split; [reflexivity|]. apply Hmode. reflexivity.
Defined.

(** ** Cache key derivation *)

(** C2: the file name of lines 113-123 is the tail followed by ['o'] when
    the overlay is on, ['m'] and the margin when [margin > 0], ['u'] and
    the upscale when [upscale > 1], and ['.png']; for margins from 0 up and
    upscales from 1 up, changing one option and keeping the rest changes
    the name. *)
Theorem cache_key_derivation filename overlay margin upscale :
  0 <= margin -> 1 <= upscale ->
  cache_filename filename overlay margin upscale
  = Spec.deriveKey (Py.item_0 (Py.rsplit1 "." filename)) overlay margin upscale
  /\ (forall overlay', overlay' <> overlay ->
        cache_filename filename overlay' margin upscale
        <> cache_filename filename overlay margin upscale)
  /\ (forall margin', 0 <= margin' -> margin' <> margin ->
        cache_filename filename overlay margin' upscale
        <> cache_filename filename overlay margin upscale)
  /\ (forall upscale', 1 <= upscale' -> upscale' <> upscale ->
        cache_filename filename overlay margin upscale'
        <> cache_filename filename overlay margin upscale).
Proof.
  intros Hm Hu. rewrite rsplit1_item_0.
  split; [apply cache_filename_deriveKey|].
  split; [|split].
  - intros overlay' Hne. rewrite !cache_filename_deriveKey.
    destruct overlay, overlay'; try done.
    + intros H. symmetry in H. by apply deriveKey_overlay in H.
    + apply deriveKey_overlay.
  - intros margin' Hm' Hne. rewrite !cache_filename_deriveKey.
    unfold Spec.deriveKey. intros H.
    apply app_inv_head, app_inv_head in H.
    apply app_inv_tail in H.
    repeat case_bool_decide; try lia; try discriminate.
    injection H as H. by apply str_int_inj in H.
  - intros upscale' Hu' Hne. rewrite !cache_filename_deriveKey.
    unfold Spec.deriveKey. intros H.
    do 3 apply app_inv_head in H.
    apply app_inv_tail in H.
    repeat case_bool_decide; try lia; try discriminate.
    injection H as H. by apply str_int_inj in H.
Qed.

(** The name of a 4-pixel margin, 2-fold upscale render with overlay. *)
Lemma cache_key_derivation_witness :
  cache_filename (lit "skin.pn") true 4 2 = lit "skinom4u2.png" /\
  cache_filename (lit "skin.pn") false 4 2 <> cache_filename (lit "skin.pn") true 4 2 /\
  cache_filename (lit "skin.pn") true 0 2 <> cache_filename (lit "skin.pn") true 4 2 /\
  cache_filename (lit "skin.pn") true 4 1 <> cache_filename (lit "skin.pn") true 4 2.
Proof.
  destruct (cache_key_derivation (lit "skin.pn") true 4 2 ltac:(lia) ltac:(lia))
    as (Hkey & Ho & Hm & Hu).
  split; [rewrite Hkey; reflexivity|].
  split; [apply Ho; discriminate|].
  split; [apply Hm; lia|apply Hu; lia].
Defined.

(** Outside the request domain the margin token does not tell the
    values apart: every margin below 1 leaves the name without it. *)
Remark nonpositive_margins_share_name filename overlay margin upscale :
  margin <= 0 ->
  cache_filename filename overlay margin upscale
  = cache_filename filename overlay 0 upscale.
Proof.
  intros Hm. unfold cache_filename.
  by rewrite (bool_decide_eq_false_2 (margin > 0)) by lia.
Qed.



(** C7, as the code has it: for a player or a link source the key holds
    no ['/']. *)
Theorem link_key_without_separator E player skin_url skin_base64 overlay
    margin upscale w k :
  truthy player || truthy skin_url = true ->
  key_of E player skin_url skin_base64 overlay margin upscale w = Some k ->
  "/"%char ∉ k.
Proof.
  intros Hsrc. rewrite key_of_segment.
  assert (forall seg, Spec.source_segment E player skin_url skin_base64 = Some seg ->
            "/"%char ∉ seg) as Hseg.
  { unfold Spec.source_segment. intros seg.
    destruct (truthy player).
    - destruct (profile E (text player)) as [e|[url ps]]; [done|].
      intros [= <-]. apply sep_not_in_last_segment.
    - simpl in Hsrc. rewrite Hsrc. intros [= <-]. apply sep_not_in_last_segment. }
  destruct (Spec.source_segment E player skin_url skin_base64) as [seg|]; [|done].
  intros [= <-] Hin. rewrite cache_filename_deriveKey in Hin.
  apply deriveKey_chars in Hin as [Hin|[Hin|[Hin|Hin]]].
  - apply elem_of_strip_extension, elem_of_slice in Hin.
    by apply (Hseg seg).
  - cbn in Hin. membership.
  - unfold Spec.is_digit in Hin. cbn in Hin. by destruct Hin.
  - done.
Qed.

(** The key of a skin behind a link. *)
Lemma link_key_without_separator_witness :
  key_of Sample.env None (Some (lit "http://example.org/skins/legacy.png"))
    None true 0 1 Sample.world = Some (lit "legacyo.png") /\
  "/"%char ∉ lit "legacyo.png".
Proof.
  split; [reflexivity|].
  apply (link_key_without_separator Sample.env None
           (Some (lit "http://example.org/skins/legacy.png")) None true 0 1
           Sample.world); reflexivity.
Defined.

(** C7 as stated fails: a base64 payload may hold ['/'], and the key of
    the payload [AAAA/AAA] is [AAAA/AAo.png]. *)
Lemma key_with_separator :
  let payload := lit "AAAA/AAA" in
  forallb Spec.base64_char payload = true /\
  template_args {| player_name := None; skin_url := None;
                   skin_base64 := Some payload; slim := false;
                   overlay := true; margin := 0; upscale := 1 |} /\
  key_of Sample.env None None (Some payload) true 0 1 Sample.world
    = Some (lit "AAAA/AAo.png") /\
  "/"%char ∈ lit "AAAA/AAo.png".
Proof.
  cbv zeta. split; [reflexivity|]. split; [unfold template_args, max_length; cbn; lia|].
  split; [reflexivity|]. cbn. membership.
Qed.



(** ** Post-processing *)

(** C3: for a well-formed image and a margin of at least 1, the margin
    step gives an RGBA image of size (w + 2m, h + 2m) whose border of
    width m is transparent on the four sides and which holds the pixel
    (x, y) of the input at (x + m, y + m). *)
Theorem margin_step_spec image m :
  image_ok image -> 1 <= m ->
  let out := margin_step image m in
  size out = (width image + 2 * m, height image + 2 * m) /\
  mode out = RGBA /\
  image_ok out /\
  (forall x y, 0 <= x < width out -> 0 <= y < height out ->
     x < m \/ width image + m <= x \/ y < m \/ height image + m <= y ->
     getpixel out x y = Some transparent) /\
  (forall x y, 0 <= x < width image -> 0 <= y < height image ->
     getpixel out (x + m) (y + m) = getpixel image x y).
Proof.
  intros Hok Hm. unfold margin_step.
  rewrite bool_decide_eq_true_2 by lia. cbv zeta.
  set (new := PIL.new RGBA _).
  assert (width new = width image + m + m) as Hwn by done.
  assert (height new = height image + m + m) as Hhn by done.
  assert (Hok' := Hok). destruct Hok' as (Hw & Hh & _).
  split; [unfold size; simpl; f_equal; lia|].
  split; [done|].
  split; [apply raster_of_ok; simpl; lia|].
  split.
  - intros x y Hx Hy Hborder. cbn [PIL.paste width height] in Hx, Hy.
    rewrite getpixel_paste_outside by lia.
    unfold new. by rewrite getpixel_new by lia.
  - intros x y Hx Hy.
    rewrite getpixel_paste_inside by lia.
    replace (x + m - m) with x by lia. replace (y + m - m) with y by lia.
    destruct (getpixel_in_range image x y Hok Hx Hy) as [p ->]. done.
Qed.

(** A 2 x 1 image with a margin of 1. *)
Lemma margin_step_spec_witness :
  image_ok Sample.tiny /\
  size (margin_step Sample.tiny 1) = (4, 3) /\
  getpixel (margin_step Sample.tiny 1) 0 2 = Some transparent /\
  getpixel (margin_step Sample.tiny 1) 1 1 = Some Sample.red.
Proof.
  assert (image_ok Sample.tiny) as Hok.
  { unfold image_ok. cbn. repeat split; try lia. by repeat constructor. }
  destruct (margin_step_spec Sample.tiny 1 Hok ltac:(lia))
    as (Hsize & _ & _ & Hborder & Hkeep).
  assert (width (margin_step Sample.tiny 1) = 4) as Hw by reflexivity.
  assert (height (margin_step Sample.tiny 1) = 3) as Hh by reflexivity.
  split; [exact Hok|]. split; [exact Hsize|].
  split; [apply Hborder; rewrite ?Hw, ?Hh; cbn; lia|].
  apply (Hkeep 0 0); cbn; lia.
Defined.

(** C4: for a well-formed image and a factor of at least 2, the upscale
    step gives an image of size (w * u, h * u) whose pixel (x, y) is the
    pixel (x / u, y / u) of the input, so every pixel of the output is a
    pixel of the input. *)
Theorem upscale_step_spec image u :
  image_ok image -> 2 <= u ->
  let out := upscale_step image u in
  size out = (width image * u, height image * u) /\
  mode out = mode image /\
  image_ok out /\
  (forall x y, 0 <= x < width out -> 0 <= y < height out ->
     0 <= x `div` u < width image /\ 0 <= y `div` u < height image /\
     getpixel out x y = getpixel image (x `div` u) (y `div` u)) /\
  (forall x y p, getpixel out x y = Some p ->
     exists x' y', getpixel image x' y' = Some p).
Proof.
  intros Hok Hu. unfold upscale_step.
  rewrite bool_decide_eq_true_2 by lia.
  unfold PIL.resize_NEAREST. cbn [width height mode].
  assert (Hok' := Hok). destruct Hok' as (Hw & Hh & _).
  assert (forall x y, 0 <= x < width image * u -> 0 <= y < height image * u ->
     0 <= x `div` u < width image /\ 0 <= y `div` u < height image) as Hdiv.
  { intros x y Hx Hy. repeat split.
    - apply Z.div_pos; lia.
    - apply Z.div_lt_upper_bound; lia.
    - apply Z.div_pos; lia.
    - apply Z.div_lt_upper_bound; lia. }
  assert (forall x y, 0 <= x < width image * u -> 0 <= y < height image * u ->
     getpixel {| mode := mode image; width := width image * u;
                 height := height image * u;
                 raster := raster_of (width image * u) (height image * u)
                   (fun x y => default transparent
                      (getpixel image (PIL.nearest (width image) (width image * u) x)
                                      (PIL.nearest (height image) (height image * u) y))) |} x y
     = getpixel image (x `div` u) (y `div` u)) as Hpix.
  { intros x y Hx Hy.
    rewrite getpixel_raster_of, bool_decide_eq_true_2 by lia.
    rewrite !nearest_scale by nia.
    destruct (Hdiv x y Hx Hy) as [Hx' Hy'].
    destruct (getpixel_in_range image _ _ Hok Hx' Hy') as [p ->]. done. }
  split; [done|]. split; [done|].
  split; [apply raster_of_ok; nia|].
  split.
  - intros x y Hx Hy. simpl in Hx, Hy.
    destruct (Hdiv x y Hx Hy). auto.
  - intros x y p Hp.
    assert (0 <= x < width image * u /\ 0 <= y < height image * u) as [Hx Hy].
    { rewrite getpixel_raster_of in Hp. case_bool_decide; [done|discriminate]. }
    rewrite Hpix in Hp by done. eauto.
Qed.

(** A 2 x 1 image scaled by 2. *)
Lemma upscale_step_spec_witness :
  image_ok Sample.tiny /\
  size (upscale_step Sample.tiny 2) = (4, 2) /\
  getpixel (upscale_step Sample.tiny 2) 1 1 = Some Sample.red /\
  getpixel (upscale_step Sample.tiny 2) 2 1 = Some transparent.
Proof.
  assert (image_ok Sample.tiny) as Hok.
  { unfold image_ok. cbn. repeat split; try lia. by repeat constructor. }
  destruct (upscale_step_spec Sample.tiny 2 Hok ltac:(lia))
    as (Hsize & _ & _ & Hpix & _).
  split; [exact Hok|]. split; [exact Hsize|].
  assert (width (upscale_step Sample.tiny 2) = 4) as Hw by reflexivity.
  assert (height (upscale_step Sample.tiny 2) = 2) as Hh by reflexivity.
  split.
  - destruct (Hpix 1 1) as (_ & _ & ->); [rewrite ?Hw, ?Hh; lia..|]. reflexivity.
  - destruct (Hpix 2 1) as (_ & _ & ->); [rewrite ?Hw, ?Hh; lia..|]. reflexivity.
Defined.

(** ** Requests *)

(** C8, what the code does: when no source parameter is given (each
    absent or empty), the template does not raise; line 111 returns the
    [HTTPException] object with status code 404 and the detail below as
    its value, and the route hands that value on to the framework.  The
    disk and the call trace stay as they were: nothing is looked up,
    fetched, rendered or stored. *)
Theorem missing_source_404 E render path player skin_url skin_base64 slim
    overlay margin upscale w :
  truthy player = false -> truthy skin_url = false ->
  truthy skin_base64 = false ->
  api_template E render path player skin_url skin_base64 slim overlay margin
    upscale w
  = (Ret (HTTPException 404
       "You must specify a Player Name, Skin URL or Skin File."), w).
Proof.
  intros Hp Hu Hb. unfold api_template, source_filename.
  rewrite Hp, Hu, Hb. reflexivity.
Qed.

(** An empty player name and no other source. *)
Lemma missing_source_404_witness :
  api_template Sample.env (fun x _ _ => x) (lit "skins/") (Some []) None None
    (Some false) true 0 1 Sample.world
  = (Ret (HTTPException 404
       "You must specify a Player Name, Skin URL or Skin File."), Sample.world).
Proof. apply missing_source_404; reflexivity. Defined.

(** C5, what the code does instead: on a cache miss the image decoded
    from an inline payload goes to the render function as it is, whatever
    its mode and size; it is not converted, upgraded or size-checked. *)
Theorem inline_skin_not_normalized E render path payload slim overlay margin
    upscale w b im :
  let file := pot_file E path
    (cache_filename (Py.slice payload (-16) (-1)) overlay margin upscale) in
  let image := upscale_step (margin_step (render im slim overlay) margin) upscale in
  truthy (Some payload) = true ->
  files w !! file = None ->
  Path.parent file ∈ dirs w ->
  Spec.decode_inline E payload = inr b ->
  Image_open E b = inr im ->
  api_template E render path None None (Some payload) slim overlay margin
    upscale w
  = (Ret (StreamingResponse image "image/png"),
     {| files := <[file := image]> (files w); dirs := dirs w;
        trace := trace w ++ [EvRender im slim overlay] |}).
Proof.
  intros file image Hp Hmiss Hdir Hdec Himg.
  unfold api_template, source_filename. cbn [truthy] in *. rewrite Hp.
  change (text (Some payload)) with payload. body_unfold. fold file.
  cbv [Path.is_file]. rewrite bool_decide_eq_false_2 by (rewrite Hmiss; by intros [? ?]).
  pose proof (source_skin_inline E payload [] false slim w Hp) as Hskin.
  rewrite Hdec, Himg in Hskin. body_unfold. rewrite Hskin.
  cbv [Image_save]. cbn [files dirs trace]. fold image.
  by rewrite bool_decide_eq_true_2 by done.
Qed.

(** A 100 x 100 RGB image sent inline is rendered and cached as it is. *)
Lemma inline_skin_not_normalized_witness :
  size Sample.poster = (100, 100) /\ mode Sample.poster = RGB /\
  api_template Sample.env (fun x _ _ => x) (lit "skins/") None None
    (Some (lit "Aw==")) (Some false) true 0 1 Sample.world
  = (Ret (StreamingResponse Sample.poster "image/png"),
     {| files := <[lit "/tmp/skins/Aw=o.png" := Sample.poster]> ∅;
        dirs := dirs Sample.world;
        trace := [EvRender Sample.poster (Some false) true] |}).
Proof.
  split; [reflexivity|]. split; [reflexivity|].
  apply (inline_skin_not_normalized Sample.env (fun x _ _ => x) (lit "skins/")
           (lit "Aw==") (Some false) true 0 1 Sample.world [Byte.x03]
           Sample.poster); reflexivity.
Defined.

(** The same image behind a link is turned down by [skin_from_url]. *)
Example link_poster_rejected :
  api_template Sample.env (fun x _ _ => x) (lit "skins/") None
    (Some (lit "http://example.org/skins/poster.png")) None (Some false)
    true 0 1 Sample.world
  = (Ret (HTTPException 404 "Image must be 64x64 pixels large"),
     {| files := ∅; dirs := dirs Sample.world;
        trace := [EvFetch (lit "http://example.org/skins/poster.png")] |}).
Proof. reflexivity. Qed.

(** C9, what the code does instead: on a cache miss, when the bytes
    decoded from an inline payload are not an image, [Image.open] raises
    [UnidentifiedImageError], the [except UrlError] clause does not catch
    it, and the exception leaves the template. *)
Theorem inline_invalid_image_unhandled E render path payload slim overlay
    margin upscale w b :
  truthy (Some payload) = true ->
  files w !! pot_file E path
    (cache_filename (Py.slice payload (-16) (-1)) overlay margin upscale) = None ->
  Spec.decode_inline E payload = inr b ->
  Image_open E b = inl UnidentifiedImageError ->
  api_template E render path None None (Some payload) slim overlay margin
    upscale w
  = (Exc UnidentifiedImageError, w).
Proof.
  intros Hp Hmiss Hdec Himg.
  unfold api_template, source_filename. cbn [truthy] in *. rewrite Hp.
  change (text (Some payload)) with payload. body_unfold.
  cbv [Path.is_file]. rewrite bool_decide_eq_false_2 by (rewrite Hmiss; by intros [? ?]).
  pose proof (source_skin_inline E payload [] false slim w Hp) as Hskin.
  rewrite Hdec, Himg in Hskin. body_unfold. by rewrite Hskin.
Qed.

(** The payload [AAAA] decodes to three zero bytes. *)
Lemma inline_invalid_image_unhandled_witness :
  api_template Sample.env (fun x _ _ => x) (lit "skins/") None None
    (Some (lit "AAAA")) (Some false) true 0 1 Sample.world
  = (Exc UnidentifiedImageError, Sample.world).
Proof.
  apply (inline_invalid_image_unhandled Sample.env (fun x _ _ => x)
           (lit "skins/") (lit "AAAA") (Some false) true 0 1 Sample.world
           [Byte.x00; Byte.x00; Byte.x00]); reflexivity.
Defined.

(** * Further properties of [main.py] *)

Lemma skin_from_url_run E url w :
  skin_from_url E url w =
  (match urlopen E url with
   | inl e => Exc (if isinstance e ValueError then UrlError else e)
   | inr file =>
       match Image_open E file with
       | inl e =>
           Exc (if decide (e = UnidentifiedImageError) then UrlError else e)
       | inr im =>
           if decide (size (normalize E im) = (64, 64))
           then Ret (normalize E im) else Exc ImageSizeError
       end
   end, add_event (EvFetch url) w).
Proof.
  unfold skin_from_url, normalize, add_event. body_unfold.
  destruct (urlopen E url) as [e|file];
    [by destruct (isinstance e ValueError)|].
  destruct (Image_open E file) as [e|im];
    [exact_class; by destruct (decide _)|].
  cbv zeta. repeat case_decide; done.
Qed.

Lemma source_skin_link E player skin_url skin_base64 url pot_slim slim w :
  truthy player = false -> truthy skin_url = true ->
  source_skin E player skin_url skin_base64 url pot_slim slim w =
  match skin_from_url E (text skin_url) w with
  | (Val image, w') | (Ret image, w') => (Val (image, slim), w')
  | (Exc e, w') => (link_failure e, w')
  end.
Proof.
  intros Hp Hu. unfold source_skin, link_failure. rewrite Hp, Hu. body_unfold.
  destruct (skin_from_url E (text skin_url) w) as [[image|image|e] w'];
    try done.
  repeat (exact_class; destruct (decide _); try done).
Qed.

Lemma source_skin_player E player skin_url skin_base64 url pot_slim slim w :
  truthy player = true ->
  source_skin E player skin_url skin_base64 url pot_slim slim w =
  match skin_from_url E url w with
  | (Val image, w') | (Ret image, w') =>
      (Val (image, if decide (slim = None) then Some pot_slim else slim), w')
  | (Exc e, w') =>
      (if decide (e = UnknownPlayerError)
       then Ret (HTTPException 404 "Unknown player") else link_failure e, w')
  end.
Proof.
  intros Hp. unfold source_skin, link_failure. rewrite Hp. body_unfold.
  destruct (skin_from_url E url w) as [[image|image|e] w']; try done.
  repeat (exact_class; destruct (decide _); simplify_eq; try done).
Qed.

Lemma store_run image file dir w :
  try_except (R := Response) (Image_save image file)
    (except_ FileNotFoundError (_ ← Path.mkdir dir; Image_save image file)) w
  = if bool_decide (Path.parent file ∈ dirs w) then (Val tt, add_file file image w)
    else if bool_decide (dir ∈ dirs w) then (Exc FileExistsError, w)
    else if bool_decide (Path.parent dir ∈ dirs w) then
      if bool_decide (Path.parent file = dir)
      then (Val tt, add_file file image (add_dir dir w))
      else (Exc FileNotFoundError, add_dir dir w)
    else (Exc FileNotFoundError, w).
Proof.
  unfold add_file, add_dir. body_unfold. cbv [Image_save Path.mkdir].
  case_bool_decide as Hpf; [done|]. exact_class.
  destruct (decide (FileNotFoundError = FileNotFoundError)); [|done].
  case_bool_decide as Hd; [done|].
  case_bool_decide as Hpd; [|done]. cbn [dirs files trace].
  rewrite (bool_decide_ext (Path.parent file ∈ {[dir]} ∪ dirs w)
             (Path.parent file = dir)); [done|].
  rewrite elem_of_union, elem_of_singleton. tauto.
Qed.

Lemma api_template_miss E render path player skin_url skin_base64 slim overlay
    margin upscale w filename url pot_slim w1 :
  source_filename E player skin_url skin_base64 w
    = (Val (filename, url, pot_slim), w1) ->
  let file := pot_file E path (cache_filename filename overlay margin upscale) in
  files w1 !! file = None ->
  api_template E render path player skin_url skin_base64 slim overlay margin
    upscale w =
  match source_skin E player skin_url skin_base64 url pot_slim slim w1 with
  | (Val (skin, slim'), w2) =>
      let image := rendered render skin slim' overlay margin upscale in
      match try_except (R := Response) (Image_save image file)
              (except_ FileNotFoundError
                 (_ ← Path.mkdir (pot_path E path); Image_save image file))
              (add_event (EvRender skin slim' overlay) w2) with
      | (Val _, w3) => (Ret (StreamingResponse image "image/png"), w3)
      | (Ret r, w3) => (Ret r, w3)
      | (Exc e, w3) => (Exc e, w3)
      end
  | (Ret r, w2) => (Ret r, w2)
  | (Exc e, w2) => (Exc e, w2)
  end.
Proof.
  intros Hsrc file Hmiss. unfold api_template, rendered, add_event.
  body_unfold. rewrite Hsrc.
  fold file. cbv [Path.is_file].
  rewrite bool_decide_eq_false_2 by (rewrite Hmiss; by intros [? ?]).
  destruct (source_skin E player skin_url skin_base64 url pot_slim slim w1)
    as [[[skin slim']| r |e] w2]; try done.
  destruct (Image_save _ file _) as [[?|?|e] w3]; try done.
  exact_class. destruct (decide (e = FileNotFoundError)); [|done].
  destruct (Path.mkdir _ w3) as [[?|?|?] w4]; try done.
  by destruct (Image_save _ file w4) as [[?|?|?] w5].
Qed.

Lemma source_filename_link E player skin_url skin_base64 w :
  truthy player = false -> truthy skin_url = true ->
  source_filename E player skin_url skin_base64 w
  = (Val (Py.slice (Py.item_last (Py.split "/" (text skin_url))) (-16) (-1),
          [], false), w).
Proof. intros Hp Hu. unfold source_filename. by rewrite Hp, Hu. Qed.

Lemma source_filename_player E player skin_url skin_base64 w :
  truthy player = true ->
  source_filename E player skin_url skin_base64 w
  = (match profile E (text player) with
     | inr (url, pot_slim) =>
         Val (Py.slice (Py.item_last (Py.split "/" url)) (-16) (-1),
              url, pot_slim)
     | inl e =>
         if decide (e = UnknownPlayerError)
         then Ret (HTTPException 404 "Unknown player") else Exc e
     end, add_event (EvLookup (text player)) w).
Proof.
  intros Hp. unfold source_filename, skin_url_from_player, add_event.
  rewrite Hp. body_unfold.
  destruct (profile E (text player)) as [e|[url ps]]; [|done].
  exact_class. by destruct (decide _).
Qed.

(** X1: whatever the network, the decoder and [old_to_new_skin] do, an image
    that [skin_from_url] returns is exactly 64 x 64. *)
Theorem skin_from_url_size E url w image w' :
  skin_from_url E url w = (Ret image, w') -> size image = (64, 64).
Proof.
  rewrite skin_from_url_run. intros [= Hr _]. revert Hr.
  destruct (urlopen E url) as [e|file]; [done|].
  destruct (Image_open E file) as [e|im]; [done|].
  case_decide as Hs; [|done]. by intros [= <-].
Qed.

(** An instance of X1. *)
Lemma skin_from_url_size_witness :
  size (PIL.convert Sample.modern RGBA) = (64, 64).
Proof.
  apply (skin_from_url_size Sample.env Sample.skin_link Sample.world
           (PIL.convert Sample.modern RGBA)
           (add_event (EvFetch Sample.skin_link) Sample.world)).
  reflexivity.
Defined.

(** X2: when [urlopen] raises, [skin_from_url] raises [UrlError] for a
    [ValueError] and for an exception of one of its subclasses
    ([binascii.Error], [UnicodeEncodeError], ...), and lets every other
    exception through unchanged; nothing is decoded. *)
Theorem skin_from_url_fetch_error E url w e :
  urlopen E url = inl e ->
  skin_from_url E url w
  = (Exc (if isinstance e ValueError then UrlError else e),
     add_event (EvFetch url) w).
Proof. intros He. by rewrite skin_from_url_run, He. Qed.

(** Three instances of X2: a [ValueError], a [binascii.Error] and an HTTP
    error. *)
Lemma skin_from_url_fetch_error_witness :
  skin_from_url Sample.env (lit "nonsense") Sample.world
  = (Exc UrlError, add_event (EvFetch (lit "nonsense")) Sample.world)
  /\ skin_from_url Sample3.env Sample3.data_link Sample.world
     = (Exc UrlError, add_event (EvFetch Sample3.data_link) Sample.world)
  /\ skin_from_url Sample2.env (lit "http://example.org/missing.png")
       Sample.world
     = (Exc (OtherError "HTTPError"),
        add_event (EvFetch (lit "http://example.org/missing.png"))
          Sample.world).
Proof.
  split; [|split].
  - apply (skin_from_url_fetch_error Sample.env (lit "nonsense") Sample.world
             ValueError). reflexivity.
  - apply (skin_from_url_fetch_error Sample3.env Sample3.data_link
             Sample.world binascii_Error). reflexivity.
  - apply (skin_from_url_fetch_error Sample2.env
             (lit "http://example.org/missing.png") Sample.world
             (OtherError "HTTPError")). reflexivity.
Defined.

(** X3: when the fetched bytes do not open as an image, [skin_from_url]
    raises [UrlError] for [UnidentifiedImageError] and lets every other
    exception of [Image.open] through unchanged. *)
Theorem skin_from_url_decode_error E url w file e :
  urlopen E url = inr file -> Image_open E file = inl e ->
  skin_from_url E url w
  = (Exc (if decide (e = UnidentifiedImageError) then UrlError else e),
     add_event (EvFetch url) w).
Proof. intros Hf He. by rewrite skin_from_url_run, Hf, He. Qed.

(** An instance of X3. *)
Lemma skin_from_url_decode_error_witness :
  skin_from_url Sample.env (lit "http://example.org/notes.txt") Sample.world
  = (Exc UrlError,
     add_event (EvFetch (lit "http://example.org/notes.txt")) Sample.world).
Proof.
  apply (skin_from_url_decode_error Sample.env
           (lit "http://example.org/notes.txt") Sample.world [Byte.x00]
           UnidentifiedImageError); reflexivity.
Defined.

Lemma source_filename_world E player skin_url skin_base64 w r w1 :
  source_filename E player skin_url skin_base64 w = (r, w1) ->
  w1 = if truthy player then add_event (EvLookup (text player)) w else w.
Proof.
  intros Hsrc. destruct (truthy player) eqn:Hp.
  - rewrite source_filename_player in Hsrc by done. by injection Hsrc.
  - unfold source_filename in Hsrc. rewrite Hp in Hsrc.
    destruct (truthy skin_url); [by injection Hsrc|].
    destruct (truthy skin_base64); by injection Hsrc.
Qed.

Lemma key_of_Some E player skin_url skin_base64 overlay margin upscale w k :
  key_of E player skin_url skin_base64 overlay margin upscale w = Some k ->
  exists filename url pot_slim,
    source_filename E player skin_url skin_base64 w
    = (Val (filename, url, pot_slim),
       if truthy player then add_event (EvLookup (text player)) w else w)
    /\ k = cache_filename filename overlay margin upscale.
Proof.
  unfold key_of. intros Hk.
  destruct (source_filename E player skin_url skin_base64 w)
    as [[[[filename url] pot_slim]| |] w1] eqn:Hsrc; try done.
  injection Hk as <-. exists filename, url, pot_slim.
  by rewrite <- (source_filename_world _ _ _ _ _ _ _ Hsrc).
Qed.

Lemma key_of_world E player skin_url skin_base64 overlay margin upscale w w' :
  key_of E player skin_url skin_base64 overlay margin upscale w
  = key_of E player skin_url skin_base64 overlay margin upscale w'.
Proof. by rewrite !key_of_segment. Qed.

(** X4: when the cache holds a file under the key of the request, the
    template answers with that image and touches nothing: the link is not
    fetched, the payload not decoded, nothing is rendered or stored (a
    player name is still looked up, to find the key). *)
Theorem cached_render_served E render path player skin_url skin_base64 slim
    overlay margin upscale w k im :
  key_of E player skin_url skin_base64 overlay margin upscale w = Some k ->
  files w !! pot_file E path k = Some im ->
  api_template E render path player skin_url skin_base64 slim overlay margin
    upscale w
  = (Ret (StreamingResponse im "image/png"),
     if truthy player then add_event (EvLookup (text player)) w else w).
Proof.
  intros (filename & url & pot_slim & Hsrc & ->)%key_of_Some Hfile.
  apply (api_template_hit _ _ _ _ _ _ _ _ _ _ _ _ _ _ _ im Hsrc).
  by destruct (truthy player).
Qed.

(** An instance of X4. *)
Lemma cached_render_served_witness :
  api_template Sample.env (fun x _ _ => x) (lit "skins/") None
    (Some Sample2.legacy_link) None (Some false) true 0 1 Sample2.cached
  = (Ret (StreamingResponse Sample.modern "image/png"), Sample2.cached).
Proof.
  apply (cached_render_served Sample.env (fun x _ _ => x) (lit "skins/") None
           (Some Sample2.legacy_link) None (Some false) true 0 1
           Sample2.cached (lit "legacyo.png") Sample.modern); reflexivity.
Defined.

(** X5: after a request that was answered with an image, the same request is
    answered with the same image from the cache, and the disk stays as it
    is. *)
Theorem render_then_hit E render path player skin_url skin_base64 slim
    overlay margin upscale w im mt w' :
  api_template E render path player skin_url skin_base64 slim overlay margin
    upscale w = (Ret (StreamingResponse im mt), w') ->
  api_template E render path player skin_url skin_base64 slim overlay margin
    upscale w'
  = (Ret (StreamingResponse im "image/png"),
     if truthy player then add_event (EvLookup (text player)) w' else w').
Proof.
  intros Hrun. apply api_template_stores in Hrun as (k & Hk & Hfile).
  rewrite (key_of_world _ _ _ _ _ _ _ w w') in Hk.
  apply key_of_Some in Hk as (filename & url & pot_slim & Hsrc & ->).
  apply (api_template_hit _ _ _ _ _ _ _ _ _ _ _ _ _ _ _ im Hsrc).
  by destruct (truthy player).
Qed.

(** An instance of X5. *)
Lemma render_then_hit_witness :
  let w' := add_file (lit "/tmp/skins/BA=o.png") Sample.tiny
              (add_event (EvRender Sample.tiny (Some false) true) Sample.world) in
  api_template Sample.env (fun x _ _ => x) (lit "skins/") None None
    (Some (lit "BA==")) (Some false) true 0 1 w'
  = (Ret (StreamingResponse Sample.tiny "image/png"), w').
Proof.
  intros w'.
  apply (render_then_hit Sample.env (fun x _ _ => x) (lit "skins/") None None
           (Some (lit "BA==")) (Some false) true 0 1 Sample.world Sample.tiny
           "image/png" w'). reflexivity.
Defined.

(** X6: a player name takes precedence over a link and a payload, and a link
    over a payload: the parameters of lower rank are not read. *)
Theorem source_priority E render path player skin_url skin_base64 slim
    overlay margin upscale w :
  (truthy player = true ->
   api_template E render path player skin_url skin_base64 slim overlay margin
     upscale w
   = api_template E render path player None None slim overlay margin
       upscale w) /\
  (truthy player = false -> truthy skin_url = true ->
   api_template E render path player skin_url skin_base64 slim overlay margin
     upscale w
   = api_template E render path None skin_url None slim overlay margin
       upscale w).
Proof.
  split.
  - intros Hp. unfold api_template, source_filename, source_skin.
    by rewrite Hp.
  - intros Hp Hu. unfold api_template, source_filename, source_skin.
    by rewrite Hp, Hu.
Qed.

(** An instance of X6. *)
Lemma source_priority_witness :
  api_template Sample.env (fun x _ _ => x) (lit "skins/")
    (Some (lit "Notch")) (Some (lit "nonsense")) (Some (lit "AAAA"))
    (Some false) true 0 1 Sample.world
  = api_template Sample.env (fun x _ _ => x) (lit "skins/")
      (Some (lit "Notch")) None None (Some false) true 0 1 Sample.world.
Proof.
  apply (source_priority Sample.env (fun x _ _ => x) (lit "skins/")
           (Some (lit "Notch")) (Some (lit "nonsense")) (Some (lit "AAAA"))
           (Some false) true 0 1 Sample.world). reflexivity.
Defined.

(** X7: when the profile lookup fails, the template answers 404 Unknown
    player for [UnknownPlayerError] and lets every other exception through;
    the cache is not consulted. *)
Theorem player_lookup_failure E render path player skin_url skin_base64 slim
    overlay margin upscale w e :
  truthy player = true -> profile E (text player) = inl e ->
  api_template E render path player skin_url skin_base64 slim overlay margin
    upscale w
  = (if decide (e = UnknownPlayerError)
     then Ret (HTTPException 404 "Unknown player") else Exc e,
     add_event (EvLookup (text player)) w).
Proof.
  intros Hp He. unfold api_template. body_unfold.
  rewrite source_filename_player, He by done.
  by destruct (decide _).
Qed.

(** An instance of X7. *)
Lemma player_lookup_failure_witness :
  api_template Sample.env (fun x _ _ => x) (lit "skins/")
    (Some (lit "Nobody")) None None (Some false) true 0 1 Sample.world
  = (Ret (HTTPException 404 "Unknown player"),
     add_event (EvLookup (lit "Nobody")) Sample.world).
Proof.
  apply (player_lookup_failure Sample.env (fun x _ _ => x) (lit "skins/")
           (Some (lit "Nobody")) None None (Some false) true 0 1 Sample.world
           UnknownPlayerError); reflexivity.
Defined.

Lemma api_template_link_miss E render path player skin_url skin_base64 slim
    overlay margin upscale w :
  truthy player = false -> truthy skin_url = true ->
  let file := pot_file E path
    (cache_filename (link_name (text skin_url)) overlay margin upscale) in
  files w !! file = None ->
  api_template E render path player skin_url skin_base64 slim overlay margin
    upscale w =
  match skin_from_url E (text skin_url) w with
  | (Val skin, w2) | (Ret skin, w2) =>
      let image := rendered render skin slim overlay margin upscale in
      match try_except (R := Response) (Image_save image file)
              (except_ FileNotFoundError
                 (_ ← Path.mkdir (pot_path E path); Image_save image file))
              (add_event (EvRender skin slim overlay) w2) with
      | (Val _, w3) => (Ret (StreamingResponse image "image/png"), w3)
      | (Ret r, w3) => (Ret r, w3)
      | (Exc e, w3) => (Exc e, w3)
      end
  | (Exc e, w2) =>
      match link_failure e with
      | Val _ => (Exc e, w2)
      | Ret r => (Ret r, w2)
      | Exc e' => (Exc e', w2)
      end
  end.
Proof.
  intros Hp Hu file Hmiss.
  rewrite (api_template_miss E render path player skin_url skin_base64 slim
             overlay margin upscale w _ _ _ w
             (source_filename_link E player skin_url skin_base64 w Hp Hu))
    by done.
  rewrite source_skin_link by done.
  destruct (skin_from_url E (text skin_url) w) as [[skin|skin|e] w2]; try done.
  unfold link_failure. by repeat (destruct (decide _); try done).
Qed.

(** X8: on a cache miss, a link that [urlopen] rejects with [ValueError], or
    whose bytes are not an image, is answered with 404 Invalid URL; nothing
    is rendered or stored. *)
Theorem link_invalid_404 E render path player skin_url skin_base64 slim
    overlay margin upscale w :
  truthy player = false -> truthy skin_url = true ->
  files w !! pot_file E path
    (cache_filename (link_name (text skin_url)) overlay margin upscale) = None ->
  urlopen E (text skin_url) = inl ValueError \/
  (exists file, urlopen E (text skin_url) = inr file /\
                Image_open E file = inl UnidentifiedImageError) ->
  api_template E render path player skin_url skin_base64 slim overlay margin
    upscale w
  = (Ret (HTTPException 404 "Invalid URL"),
     add_event (EvFetch (text skin_url)) w).
Proof.
  intros Hp Hu Hmiss Hfail.
  rewrite api_template_link_miss by done. rewrite skin_from_url_run.
  destruct Hfail as [->|(file & -> & ->)]; reflexivity.
Qed.

(** An instance of X8. *)
Lemma link_invalid_404_witness :
  api_template Sample.env (fun x _ _ => x) (lit "skins/") None
    (Some (lit "nonsense")) None (Some false) true 0 1 Sample.world
  = (Ret (HTTPException 404 "Invalid URL"),
     add_event (EvFetch (lit "nonsense")) Sample.world).
Proof.
  apply (link_invalid_404 Sample.env (fun x _ _ => x) (lit "skins/") None
           (Some (lit "nonsense")) None (Some false) true 0 1 Sample.world);
    try reflexivity.
  left. reflexivity.
Defined.

(** X9: on a cache miss, a link to an image that is not 64 x 64 after
    normalisation is answered with 404 Image must be 64x64 pixels large;
    nothing is rendered or stored. *)
Theorem link_wrong_size_404 E render path player skin_url skin_base64 slim
    overlay margin upscale w file im :
  truthy player = false -> truthy skin_url = true ->
  files w !! pot_file E path
    (cache_filename (link_name (text skin_url)) overlay margin upscale) = None ->
  urlopen E (text skin_url) = inr file -> Image_open E file = inr im ->
  size (normalize E im) <> (64, 64) ->
  api_template E render path player skin_url skin_base64 slim overlay margin
    upscale w
  = (Ret (HTTPException 404 "Image must be 64x64 pixels large"),
     add_event (EvFetch (text skin_url)) w).
Proof.
  intros Hp Hu Hmiss Hopen Himg Hsize.
  rewrite api_template_link_miss by done.
  rewrite skin_from_url_run, Hopen, Himg.
  by rewrite decide_False by done.
Qed.

(** An instance of X9. *)
Lemma link_wrong_size_404_witness :
  size Sample.poster = (100, 100) /\
  api_template Sample.env (fun x _ _ => x) (lit "skins/") None
    (Some (lit "http://example.org/skins/poster.png")) None (Some false)
    true 0 1 Sample.world
  = (Ret (HTTPException 404 "Image must be 64x64 pixels large"),
     add_event (EvFetch (lit "http://example.org/skins/poster.png"))
       Sample.world).
Proof.
  split; [reflexivity|].
  apply (link_wrong_size_404 Sample.env (fun x _ _ => x) (lit "skins/") None
           (Some (lit "http://example.org/skins/poster.png")) None (Some false)
           true 0 1 Sample.world [Byte.x03] Sample.poster);
    try reflexivity.
  discriminate.
Defined.

(** X10: on a cache miss, an exception of [urlopen] that is no
    [ValueError] (neither the class itself nor a subclass such as
    [binascii.Error] or [UnicodeEncodeError]) and none of the two classes of
    [main.py] that the template catches leaves the template unhandled: an
    HTTP error, say. An exception that is a [ValueError] is answered with
    404 Invalid URL instead. *)
Theorem link_fetch_error_unhandled E render path player skin_url skin_base64
    slim overlay margin upscale w e :
  truthy player = false -> truthy skin_url = true ->
  files w !! pot_file E path
    (cache_filename (link_name (text skin_url)) overlay margin upscale) = None ->
  urlopen E (text skin_url) = inl e ->
  let outcome :=
    api_template E render path player skin_url skin_base64 slim overlay margin
      upscale w in
  let w' := add_event (EvFetch (text skin_url)) w in
  (isinstance e ValueError = false -> e <> UrlError -> e <> ImageSizeError ->
   outcome = (Exc e, w')) /\
  (isinstance e ValueError = true ->
   outcome = (Ret (HTTPException 404 "Invalid URL"), w')).
Proof.
  intros Hp Hu Hmiss Hopen outcome w'. subst outcome w'.
  rewrite api_template_link_miss by done.
  rewrite skin_from_url_run, Hopen. unfold link_failure.
  split.
  - intros -> H2 H3. by repeat (destruct (decide _); try done).
  - by intros ->.
Qed.

(** Two instances of X10: an HTTP error passes, a [binascii.Error] is
    answered. *)
Lemma link_fetch_error_unhandled_witness :
  api_template Sample2.env (fun x _ _ => x) (lit "skins/") None
    (Some (lit "http://example.org/missing.png")) None (Some false)
    true 0 1 Sample.world
  = (Exc (OtherError "HTTPError"),
     add_event (EvFetch (lit "http://example.org/missing.png")) Sample.world)
  /\ api_template Sample3.env (fun x _ _ => x) (lit "skins/") None
       (Some Sample3.data_link) None (Some false) true 0 1 Sample.world
     = (Ret (HTTPException 404 "Invalid URL"),
        add_event (EvFetch Sample3.data_link) Sample.world).
Proof.
  split.
  - apply (link_fetch_error_unhandled Sample2.env (fun x _ _ => x)
             (lit "skins/") None (Some (lit "http://example.org/missing.png"))
             None (Some false) true 0 1 Sample.world (OtherError "HTTPError"));
      try reflexivity; discriminate.
  - apply (link_fetch_error_unhandled Sample3.env (fun x _ _ => x)
             (lit "skins/") None (Some Sample3.data_link)
             None (Some false) true 0 1 Sample.world binascii_Error);
      reflexivity.
Defined.


Lemma api_template_player_stored E render path player skin_url skin_base64
    slim overlay margin upscale w url pot_slim file im :
  let target := pot_file E path
    (cache_filename (link_name url) overlay margin upscale) in
  let skin := normalize E im in
  let slim' := if decide (slim = None) then Some pot_slim else slim in
  let image := rendered render skin slim' overlay margin upscale in
  truthy player = true -> profile E (text player) = inr (url, pot_slim) ->
  files w !! target = None -> Path.parent target ∈ dirs w ->
  urlopen E url = inr file -> Image_open E file = inr im ->
  size skin = (64, 64) ->
  api_template E render path player skin_url skin_base64 slim overlay margin
    upscale w
  = (Ret (StreamingResponse image "image/png"),
     add_file target image
       (add_event (EvRender skin slim' overlay)
          (add_event (EvFetch url)
             (add_event (EvLookup (text player)) w)))).
Proof.
  intros target skin slim' image Hp Hprof Hmiss Hdir Hopen Himg Hsize.
  pose proof (source_filename_player E player skin_url skin_base64 w Hp) as Hsrc.
  rewrite Hprof in Hsrc.
  rewrite (api_template_miss E render path player skin_url skin_base64 slim
             overlay margin upscale w _ _ _ _ Hsrc) by done.
  rewrite source_skin_player by done.
  rewrite skin_from_url_run, Hopen, Himg. fold skin.
  rewrite decide_True by done. cbv zeta. fold slim' target image.
  rewrite store_run. by rewrite bool_decide_eq_true_2 by done.
Qed.

(** X11: when the template is called without a slim flag, a player render
    uses the flag of the profile. *)
Theorem player_slim_default E render path player skin_url skin_base64
    overlay margin upscale w url pot_slim file im :
  let target := pot_file E path
    (cache_filename (link_name url) overlay margin upscale) in
  let skin := normalize E im in
  let image := rendered render skin (Some pot_slim) overlay margin upscale in
  truthy player = true -> profile E (text player) = inr (url, pot_slim) ->
  files w !! target = None -> Path.parent target ∈ dirs w ->
  urlopen E url = inr file -> Image_open E file = inr im ->
  size skin = (64, 64) ->
  api_template E render path player skin_url skin_base64 None overlay margin
    upscale w
  = (Ret (StreamingResponse image "image/png"),
     add_file target image
       (add_event (EvRender skin (Some pot_slim) overlay)
          (add_event (EvFetch url)
             (add_event (EvLookup (text player)) w)))).
Proof.
  intros target skin image Hp Hprof Hmiss Hdir Hopen Himg Hsize.
  by apply (api_template_player_stored E render path player skin_url
              skin_base64 None overlay margin upscale w url pot_slim file im).
Qed.

(** An instance of X11. *)
Lemma player_slim_default_witness :
  (api_template Sample.env (fun x _ _ => x) (lit "skins/")
     (Some (lit "Notch")) None None None true 0 1 Sample.world).2
  = add_file (lit "/tmp/skins/0123456789abcdeo.png")
      (PIL.convert Sample.modern RGBA)
      (add_event (EvRender (PIL.convert Sample.modern RGBA) (Some false) true)
         (add_event (EvFetch Sample.skin_link)
            (add_event (EvLookup (lit "Notch")) Sample.world))).
Proof.
  rewrite (player_slim_default Sample.env (fun x _ _ => x) (lit "skins/")
             (Some (lit "Notch")) None None true 0 1 Sample.world
             Sample.skin_link false [Byte.x02] Sample.modern);
    reflexivity.
Defined.

(** X12: the routes always pass the slim flag of the request, so a player
    render through a route never uses the flag of the profile. *)
Theorem route_slim_from_request E render path a w url pot_slim file im :
  let target := pot_file E path
    (cache_filename (link_name url) (overlay a) (margin a) (upscale a)) in
  let skin := normalize E im in
  let image :=
    rendered render skin (Some (slim a)) (overlay a) (margin a) (upscale a) in
  truthy (player_name a) = true ->
  profile E (text (player_name a)) = inr (url, pot_slim) ->
  files w !! target = None -> Path.parent target ∈ dirs w ->
  urlopen E url = inr file -> Image_open E file = inr im ->
  size skin = (64, 64) ->
  route E render path a w
  = (Ret (StreamingResponse image "image/png"),
     add_file target image
       (add_event (EvRender skin (Some (slim a)) (overlay a))
          (add_event (EvFetch url)
             (add_event (EvLookup (text (player_name a))) w)))).
Proof.
  intros target skin image Hp Hprof Hmiss Hdir Hopen Himg Hsize.
  unfold route.
  by apply (api_template_player_stored E render path (player_name a)
              (skin_url a) (skin_base64 a) (Some (slim a)) (overlay a)
              (margin a) (upscale a) w url pot_slim file im).
Qed.

(** An instance of X12. *)
Lemma route_slim_from_request_witness :
  (skin Sample.env Sample2.player_args Sample.world).2
  = add_file (lit "/tmp/skins/0123456789abcdeo.png")
      (PIL.convert Sample.modern RGBA)
      (add_event (EvRender (PIL.convert Sample.modern RGBA) (Some true) true)
         (add_event (EvFetch Sample.skin_link)
            (add_event (EvLookup (lit "Notch")) Sample.world))).
Proof.
  unfold skin.
  rewrite (route_slim_from_request Sample.env (fun x _ _ => x) (lit "skins/")
             Sample2.player_args Sample.world Sample.skin_link false
             [Byte.x02] Sample.modern);
    reflexivity.
Defined.




Lemma margin_step_ok image m :
  image_ok image -> 1 <= m -> image_ok (margin_step image m).
Proof.
  intros (Hw & Hh & _) Hm. unfold margin_step.
  rewrite bool_decide_eq_true_2 by lia.
  apply raster_of_ok; cbn; lia.
Qed.

Lemma getpixel_margin_step image m x y :
  image_ok image -> 1 <= m ->
  0 <= x < width image + 2 * m -> 0 <= y < height image + 2 * m ->
  getpixel (margin_step image m) x y =
  if bool_decide (m <= x < width image + m /\ m <= y < height image + m)
  then getpixel image (x - m) (y - m) else Some transparent.
Proof.
  intros Hok Hm Hx Hy. unfold margin_step.
  rewrite bool_decide_eq_true_2 by lia. cbv zeta.
  case_bool_decide as Hbox.
  - rewrite getpixel_paste_inside by (cbn; lia).
    destruct (getpixel_in_range image (x - m) (y - m) Hok) as [p ->];
      [lia..|done].
  - rewrite getpixel_paste_outside by (cbn; lia).
    by rewrite getpixel_new by lia.
Qed.

Lemma getpixel_upscale_step image u x y :
  image_ok image -> 2 <= u ->
  0 <= x < width image * u -> 0 <= y < height image * u ->
  getpixel (upscale_step image u) x y
  = getpixel image (x `div` u) (y `div` u).
Proof.
  intros Hok Hu Hx Hy. unfold upscale_step.
  rewrite bool_decide_eq_true_2 by lia. unfold PIL.resize_NEAREST.
  rewrite getpixel_raster_of, bool_decide_eq_true_2 by lia.
  rewrite !nearest_scale by nia.
  destruct (getpixel_in_range image (x `div` u) (y `div` u) Hok) as [p ->];
    [split; [apply Z.div_pos|apply Z.div_lt_upper_bound]; lia..|done].
Qed.

(** X14: the two post-processing steps together: the output pixel (x, y) is
    transparent in a border of margin * upscale pixels and is the input
    pixel (x / upscale - margin, y / upscale - margin) inside. *)
Theorem margin_then_upscale_pixels image m u x y :
  image_ok image -> 1 <= m -> 2 <= u ->
  0 <= x < (width image + 2 * m) * u -> 0 <= y < (height image + 2 * m) * u ->
  getpixel (upscale_step (margin_step image m) u) x y =
  if bool_decide (m * u <= x < (width image + m) * u /\
                  m * u <= y < (height image + m) * u)
  then getpixel image (x `div` u - m) (y `div` u - m)
  else Some transparent.
Proof.
  intros Hok Hm Hu Hx Hy.
  assert (width (margin_step image m) = width image + 2 * m) as Hw.
  { unfold margin_step. rewrite bool_decide_eq_true_2 by lia. cbn. lia. }
  assert (height (margin_step image m) = height image + 2 * m) as Hh.
  { unfold margin_step. rewrite bool_decide_eq_true_2 by lia. cbn. lia. }
  rewrite getpixel_upscale_step
    by (rewrite ?Hw, ?Hh; auto using margin_step_ok with lia).
  assert (0 <= x `div` u < width image + 2 * m) as Hx'.
  { split; [apply Z.div_pos|apply Z.div_lt_upper_bound]; lia. }
  assert (0 <= y `div` u < height image + 2 * m) as Hy'.
  { split; [apply Z.div_pos|apply Z.div_lt_upper_bound]; lia. }
  rewrite getpixel_margin_step by done.
  apply (f_equal (fun b : bool => if b then _ else _)).
  apply bool_decide_ext.
  assert (forall a b, a <= b `div` u <-> a * u <= b) as Hle.
  { intros a b. split; intros H.
    - pose proof (Z.mul_div_le b u ltac:(lia)). nia.
    - apply Z.div_le_lower_bound; lia. }
  assert (forall a b, b `div` u < a <-> b < a * u) as Hlt.
  { intros a b. split; intros H.
    - pose proof (Hle a b). lia.
    - apply Z.div_lt_upper_bound; lia. }
  rewrite !Hle, !Hlt. tauto.
Qed.

(** An instance of X14. *)
Lemma margin_then_upscale_pixels_witness :
  getpixel (upscale_step (margin_step Sample.tiny 1) 2) 3 2 = Some Sample.red /\
  getpixel (upscale_step (margin_step Sample.tiny 1) 2) 1 2 = Some transparent.
Proof.
  assert (image_ok Sample.tiny) as Hok.
  { unfold image_ok. cbn. repeat split; try lia. by repeat constructor. }
  split.
  - rewrite (margin_then_upscale_pixels Sample.tiny 1 2 3 2 Hok);
      cbn; try lia. reflexivity.
  - rewrite (margin_then_upscale_pixels Sample.tiny 1 2 1 2 Hok);
      cbn; try lia. reflexivity.
Defined.

Lemma cut_first_app sep x y :
  sep ∉ x -> Py.cut_first sep (x ++ sep :: y) = Some (x, y).
Proof.
  intros Hx. induction x as [|c x IH]; cbn [Py.cut_first app].
  - by rewrite decide_True.
  - rewrite decide_False by (intros ->; apply Hx; apply list_elem_of_here).
    rewrite IH; [done|]. intros Hin. apply Hx. by apply list_elem_of_further.
Qed.

Lemma not_elem_of_rev (c : ascii) s : c ∉ s -> c ∉ rev s.
Proof. intros Hn Hin. apply Hn. by apply list_elem_of_In, in_rev, list_elem_of_In. Qed.

Lemma strip_sep_png s : Path.strip_sep (s ++ lit ".png") = s ++ lit ".png".
Proof. unfold Path.strip_sep. by rewrite rev_app_distr. Qed.

Lemma Path_parent_join a k :
  "/"%char ∉ k -> Path.parent (a ++ lit "/" ++ k) = a.
Proof.
  intros Hk. unfold Path.parent.
  replace (rev (a ++ lit "/" ++ k)) with (rev k ++ "/"%char :: rev a).
  - rewrite cut_first_app by by apply not_elem_of_rev.
    apply rev_involutive.
  - rewrite !rev_app_distr. cbn. by rewrite <- app_assoc.
Qed.

Lemma cache_filename_png filename overlay margin upscale :
  exists body, cache_filename filename overlay margin upscale = body ++ lit ".png".
Proof. unfold cache_filename. eauto. Qed.

Lemma Path_div_relative a k :
  "/"%char ∉ k -> Path.div a (k ++ lit ".png") = a ++ lit "/" ++ k ++ lit ".png".
Proof.
  intros Hk. unfold Path.div. rewrite strip_sep_png.
  destruct k as [|c k]; [done|].
  cbn [app]. destruct (decide (c = "/"%char)) as [->|Hc].
  - exfalso. apply Hk. apply list_elem_of_here.
  - by repeat case_match; simplify_eq.
Qed.

Lemma link_cache_filename_sep url overlay margin upscale :
  "/"%char ∉ cache_filename (link_name url) overlay margin upscale.
Proof.
  rewrite cache_filename_deriveKey. intros Hin.
  apply deriveKey_chars in Hin as [Hin|[Hin|[Hin|Hin]]].
  - apply elem_of_strip_extension, elem_of_slice in Hin.
    by apply sep_not_in_last_segment in Hin.
  - cbn in Hin. membership.
  - unfold Spec.is_digit in Hin. cbn in Hin. by destruct Hin.
  - done.
Qed.

Lemma pot_file_link E path url overlay margin upscale :
  let k := cache_filename (link_name url) overlay margin upscale in
  pot_file E path k = pot_path E path ++ lit "/" ++ k /\
  Path.parent (pot_file E path k) = pot_path E path.
Proof.
  intros k. pose proof (link_cache_filename_sep url overlay margin upscale) as Hsep.
  fold k in Hsep.
  destruct (cache_filename_png (link_name url) overlay margin upscale)
    as [body Hbody]. fold k in Hbody.
  assert (pot_file E path k = pot_path E path ++ lit "/" ++ k) as Hfile.
  { unfold pot_file. rewrite Hbody. apply Path_div_relative.
    intros Hin. apply Hsep. rewrite Hbody. apply elem_of_app. by left. }
  split; [done|]. rewrite Hfile. by apply Path_parent_join.
Qed.





Lemma source_skin_files E player skin_url skin_base64 url pot_slim slim w r w' :
  source_skin E player skin_url skin_base64 url pot_slim slim w = (r, w') ->
  files w' = files w /\ dirs w' = dirs w.
Proof.
  unfold source_skin, skin_from_url. body_unfold.
  repeat (case_match; simplify_eq/=; try done); intros; by simplify_eq.
Qed.

(** The only file a run of the template can change is the cache file of
    the request. *)
Lemma api_template_files E render path player skin_url skin_base64 slim
    overlay margin upscale w r w' :
  api_template E render path player skin_url skin_base64 slim overlay margin
    upscale w = (r, w') ->
  files w' = files w \/
  exists k image,
    key_of E player skin_url skin_base64 overlay margin upscale w = Some k /\
    files w' = <[pot_file E path k := image]> (files w).
Proof.
  destruct (source_filename E player skin_url skin_base64 w)
    as [[[[filename url] pot_slim]| r1 |e] w1] eqn:Hsrc.
  2,3: unfold api_template; body_unfold; rewrite Hsrc; intros [= <- <-];
       left; by apply source_filename_files in Hsrc as [-> _].
  pose proof (source_filename_files _ _ _ _ _ _ _ Hsrc) as [Hf1 _].
  set (file := pot_file E path (cache_filename filename overlay margin upscale)).
  destruct (files w1 !! file) as [im|] eqn:Hfile.
  - rewrite (api_template_hit _ _ _ _ _ _ _ _ _ _ _ _ _ _ _ _ Hsrc Hfile).
    intros [= <- <-]. by left.
  - rewrite (api_template_miss _ _ _ _ _ _ _ _ _ _ _ _ _ _ _ Hsrc Hfile).
    destruct (source_skin E player skin_url skin_base64 url pot_slim slim w1)
      as [[[skin slim']| r2 |e] w2] eqn:Hskin;
      pose proof (source_skin_files _ _ _ _ _ _ _ _ _ _ Hskin) as [Hf2 _].
    2,3: intros [= <- <-]; left; congruence.
    cbv zeta. rewrite store_run. fold file.
    assert (key_of E player skin_url skin_base64 overlay margin upscale w
            = Some (cache_filename filename overlay margin upscale)) as Hkey
      by (unfold key_of; by rewrite Hsrc).
    repeat case_bool_decide; intros [= <- <-];
      cbn [files add_file add_dir add_event]; rewrite Hf2, Hf1;
      first [by left | right; eexists _, _; split; [exact Hkey|done]].
Qed.

Lemma key_of_link_name E player skin_url skin_base64 overlay margin upscale w k :
  truthy player || truthy skin_url = true ->
  key_of E player skin_url skin_base64 overlay margin upscale w = Some k ->
  exists url, k = cache_filename (link_name url) overlay margin upscale.
Proof.
  intros Hsrc. rewrite key_of_segment. unfold Spec.source_segment.
  destruct (truthy player).
  - destruct (profile E (text player)) as [|[url ?]]; [done|].
    intros [= <-]. by exists url.
  - cbn in Hsrc. rewrite Hsrc. intros [= <-]. by exists (text skin_url).
Qed.

Lemma pot_path_posix E :
  os_name E <> "nt" ->
  pot_path E (lit "skins/") = lit "/tmp/skins" /\
  pot_path E (lit "portraits/") = lit "/tmp/portraits" /\
  pot_path E (lit "profiles/") = lit "/tmp/profiles".
Proof. intros Hos. unfold pot_path. by rewrite decide_False by done. Qed.

Lemma route_files E render path a w r w' p :
  truthy (player_name a) || truthy (skin_url a) = true ->
  route E render path a w = (r, w') ->
  files w' !! p <> files w !! p ->
  Path.parent p = pot_path E path.
Proof.
  intros Hsrc Hrun Hp. unfold route in Hrun.
  apply api_template_files in Hrun as [Hsame|(k & image & Hk & Hfiles)].
  - by rewrite Hsame in Hp.
  - apply key_of_link_name in Hk as [url ->]; [|done].
    rewrite Hfiles in Hp.
    destruct (decide (p = pot_file E path
                (cache_filename (link_name url) (overlay a) (margin a)
                   (upscale a)))) as [->|Hne].
    + apply pot_file_link.
    + by rewrite lookup_insert_ne in Hp.
Qed.

(** X17: on a system other than Windows, whatever a player or link request
    through the route [skin] does, the only files it creates or changes lie
    directly in [/tmp/skins]; those of [portrait] lie in [/tmp/portraits]
    and those of [face] in [/tmp/profiles].  So such a request never
    creates or changes a file in the directory of another route. *)
Theorem routes_keep_files_apart E a w r w' p :
  os_name E <> "nt" ->
  truthy (player_name a) || truthy (skin_url a) = true ->
  files w' !! p <> files w !! p ->
  (skin E a w = (r, w') -> Path.parent p = lit "/tmp/skins") /\
  (portrait E a w = (r, w') -> Path.parent p = lit "/tmp/portraits") /\
  (face E a w = (r, w') -> Path.parent p = lit "/tmp/profiles").
Proof.
  intros Hos Hsrc Hp. destruct (pot_path_posix E Hos) as (<- & <- & <-).
  repeat split; intros Hrun; by eapply route_files.
Qed.

(** An instance of X17: the file that the skin route stores for
    [legacy.png]. *)
Lemma routes_keep_files_apart_witness :
  let p := lit "/tmp/skins/legacyom4u2.png" in
  let run := skin Sample.env Sample2.link_args Sample.world in
  is_Some (files run.2 !! p) /\ Path.parent p = lit "/tmp/skins".
Proof.
  intros p run.
  assert (is_Some (files run.2 !! p)) as Hnew by (by vm_compute; eexists).
  split; [exact Hnew|].
  apply (routes_keep_files_apart Sample.env Sample2.link_args Sample.world
           run.1 run.2 p).
  - discriminate.
  - reflexivity.
  - change (files Sample.world !! p) with (@None Image).
    intros Heq. rewrite Heq in Hnew. by destruct Hnew.
  - apply surjective_pairing.
Defined.




Lemma length_slice_16_1 {A} (s : list A) : (length (Py.slice s (-16) (-1)) <= 15)%nat.
Proof.
  rewrite slice_16_1. unfold Spec.last_n, Spec.drop_last.
  rewrite length_drop, length_take. lia.
Qed.

Lemma length_strip_extension s : (length (Spec.strip_extension s) <= length s)%nat.
Proof.
  induction s as [|c s IH]; [done|]. cbn [Spec.strip_extension].
  case_bool_decide; [|destruct (decide _)]; cbn; lia.
Qed.

Lemma length_str_int_digit n : 0 <= n <= 9 -> length (str_int n) = 1%nat.
Proof.
  intros Hn. rewrite <- (Z2Nat.id n) by lia.
  assert (Z.to_nat n < 10)%nat as Hk by lia.
  revert Hk. generalize (Z.to_nat n) as k. intros k Hk.
  do 10 (destruct k as [|k]; [reflexivity|]). lia.
Qed.

(** X19: for a request the query layer admits, the file name has between 4
    and 24 characters. *)
Theorem cache_filename_length E a w k :
  template_args a ->
  key_of E (player_name a) (skin_url a) (skin_base64 a) (overlay a) (margin a)
    (upscale a) w = Some k ->
  (4 <= length k <= 24)%nat.
Proof.
  intros (_ & _ & _ & Hm & Hu). rewrite key_of_segment.
  destruct (Spec.source_segment _ _ _ _) as [seg|]; [|done].
  intros [= <-]. rewrite cache_filename_deriveKey. unfold Spec.deriveKey.
  rewrite !length_app.
  pose proof (length_strip_extension (Py.slice seg (-16) (-1))).
  pose proof (length_slice_16_1 seg).
  assert (length (if overlay a then lit "o" else []) <= 1)%nat
    by (destruct (overlay a); cbn; lia).
  assert (length (if bool_decide (margin a > 0)%Z
                  then lit "m" ++ str_int (margin a) else []) <= 2)%nat.
  { destruct (bool_decide_reflect (margin a > 0)%Z); [|cbn; lia].
    rewrite length_app, length_str_int_digit by lia. cbn. lia. }
  assert (length (if bool_decide (upscale a > 1)%Z
                  then lit "u" ++ str_int (upscale a) else []) <= 2)%nat.
  { destruct (bool_decide_reflect (upscale a > 1)%Z); [|cbn; lia].
    rewrite length_app, length_str_int_digit by lia. cbn. lia. }
  change (length (lit ".png")) with 4%nat. lia.
Qed.

(** An instance of X19. *)
Lemma cache_filename_length_witness :
  (4 <= length (lit "legacyom4u2.png") <= 24)%nat.
Proof.
  apply (cache_filename_length Sample.env Sample2.link_args Sample.world).
  - unfold template_args, max_length. cbn. lia.
  - reflexivity.
Defined.

(** X20: when [json.loads] raises [JSONDecodeError] on the answer of the
    name service (an empty body, text that is not JSON), or parses it to a
    falsy document ([null], an empty object, ...), the lookup raises
    [UnknownPlayerError] after that one request.  Any other exception of
    [json.loads], such as [UnicodeDecodeError] for a body that is not
    UTF-8, is passed on as it is. *)
Theorem lookup_unknown_player E C player_name w b :
  urlopen E (lit Lookup.name_endpoint ++ player_name) = inr b ->
  let outcome := Lookup.skin_url_from_player E C player_name w in
  let w' := add_event (EvFetch (lit Lookup.name_endpoint ++ player_name)) w in
  (forall e, loads C (OfBytes b) = inl e ->
     outcome
     = (Exc (if decide (e = Json.JSONDecodeError) then UnknownPlayerError
             else e), w')) /\
  (forall v, loads C (OfBytes b) = inr v -> Json.truthy v = false ->
     outcome = (Exc UnknownPlayerError, w')).
Proof.
  intros Hopen outcome w'. subst outcome w'.
  unfold Lookup.skin_url_from_player, Lookup.read, add_event.
  body_unfold. rewrite Hopen. split.
  - intros e ->. rewrite if_isinstance by done. by destruct (decide _).
  - intros v -> Hv. by rewrite Hv.
Qed.

(** Three instances of X20: an empty body, the document [null] and a body
    that is not UTF-8. *)
Lemma lookup_unknown_player_witness :
  Lookup.skin_url_from_player Sample2.env Sample2.codec (lit "Nobody")
    Sample.world
  = (Exc UnknownPlayerError,
     add_event (EvFetch (Sample2.name_url "Nobody")) Sample.world)
  /\ Lookup.skin_url_from_player Sample3.env Sample3.codec (lit "Nil")
       Sample.world
     = (Exc UnknownPlayerError,
        add_event (EvFetch (Sample2.name_url "Nil")) Sample.world)
  /\ Lookup.skin_url_from_player Sample3.env Sample3.codec (lit "Mojibake")
       Sample.world
     = (Exc (OtherError "UnicodeDecodeError"),
        add_event (EvFetch (Sample2.name_url "Mojibake")) Sample.world).
Proof.
  split; [|split].
  - apply (proj1 (lookup_unknown_player Sample2.env Sample2.codec
                    (lit "Nobody") Sample.world [] eq_refl)
             Json.JSONDecodeError). reflexivity.
  - apply (proj2 (lookup_unknown_player Sample3.env Sample3.codec
                    (lit "Nil") Sample.world [Byte.x14] eq_refl)
             Json.Null); reflexivity.
  - apply (proj1 (lookup_unknown_player Sample3.env Sample3.codec
                    (lit "Mojibake") Sample.world [Byte.xff] eq_refl)
             (OtherError "UnicodeDecodeError")). reflexivity.
Defined.

(** X21: when the request to the name service itself fails, the exception is
    passed on: an HTTP error is not turned into [UnknownPlayerError]. *)
Theorem lookup_request_error E C player_name w e :
  urlopen E (lit Lookup.name_endpoint ++ player_name) = inl e ->
  Lookup.skin_url_from_player E C player_name w
  = (Exc (if decide (e = Json.JSONDecodeError) then UnknownPlayerError else e),
     add_event (EvFetch (lit Lookup.name_endpoint ++ player_name)) w).
Proof.
  intros Hopen. unfold Lookup.skin_url_from_player, Lookup.read, add_event.
  body_unfold. rewrite Hopen. rewrite if_isinstance by done.
  by destruct (decide _).
Qed.

(** An instance of X21. *)
Lemma lookup_request_error_witness :
  Lookup.skin_url_from_player Sample2.env Sample2.codec (lit "Ghost")
    Sample.world
  = (Exc (OtherError "HTTPError"),
     add_event (EvFetch (Sample2.name_url "Ghost")) Sample.world).
Proof.
  apply (lookup_request_error Sample2.env Sample2.codec (lit "Ghost")
           Sample.world (OtherError "HTTPError")). reflexivity.
Defined.

(** X22: a non-empty document without an [id] makes the lookup raise
    [KeyError], not [UnknownPlayerError]. *)
Theorem lookup_error_document E C player_name w b items :
  urlopen E (lit Lookup.name_endpoint ++ player_name) = inr b ->
  loads C (OfBytes b) = inr (Json.Obj items) ->
  items <> [] -> Json.assoc (lit "id") items = None ->
  Lookup.skin_url_from_player E C player_name w
  = (Exc Json.KeyError,
     add_event (EvFetch (lit Lookup.name_endpoint ++ player_name)) w).
Proof.
  intros Hopen Hdoc Hne Hid. unfold Lookup.skin_url_from_player, Lookup.read, add_event.
  body_unfold. rewrite Hopen, Hdoc. cbn [Json.truthy].
  rewrite bool_decide_eq_false_2 by done. cbn [negb].
  unfold Json.getitem. by rewrite Hid.
Qed.

(** An instance of X22. *)
Lemma lookup_error_document_witness :
  Lookup.skin_url_from_player Sample2.env Sample2.codec (lit "Broken")
    Sample.world
  = (Exc Json.KeyError,
     add_event (EvFetch (Sample2.name_url "Broken")) Sample.world).
Proof.
  apply (lookup_error_document Sample2.env Sample2.codec (lit "Broken")
           Sample.world [Byte.x13]
           [(lit "error", Json.Str (lit "Not Found"))]);
    try reflexivity. discriminate.
Defined.

(** X23: on well-formed answers the lookup returns the [url] of the texture
    and a slim flag that is true exactly when [metadata.model] is the text
    [slim]; a missing [metadata] or [model] gives false, a [metadata] that
    is not an object raises [TypeError]. *)
Theorem lookup_link_and_slim E C player_name w b1 id_json id b2 data_json
    properties property encoded raw decoded decoded_json textures items link :
  urlopen E (lit Lookup.name_endpoint ++ player_name) = inr b1 ->
  loads C (OfBytes b1) = inr id_json -> Json.truthy id_json = true ->
  Json.getitem id_json "id" = inr (Json.Str id) ->
  urlopen E (lit Lookup.profile_endpoint ++ id) = inr b2 ->
  loads C (OfBytes b2) = inr data_json ->
  Json.getitem data_json "properties" = inr properties ->
  Json.getitem_0 properties = inr property ->
  Json.getitem property "value" = inr (Json.Str encoded) ->
  b64decode E encoded = inr raw -> decode_utf8 C raw = inr decoded ->
  loads C (OfStr decoded) = inr decoded_json ->
  Json.getitem decoded_json "textures" = inr textures ->
  Json.getitem textures "SKIN" = inr (Json.Obj items) ->
  Json.assoc (lit "url") items = Some link ->
  Lookup.skin_url_from_player E C player_name w
  = (match Json.assoc (lit "metadata") items with
     | None => Ret (link, false)
     | Some (Json.Obj metadata) =>
         Ret (link,
              match Json.assoc (lit "model") metadata with
              | Some model => Json.eq_str model "slim"
              | None => false
              end)
     | Some _ => Exc Json.TypeError
     end,
     add_event (EvFetch (lit Lookup.profile_endpoint ++ id))
       (add_event (EvFetch (lit Lookup.name_endpoint ++ player_name)) w)).
Proof.
  intros H1 H2 H3 H4 H5 H6 H7 H8 H9 H10 H11 H12 H13 H14 H15.
  unfold Lookup.skin_url_from_player, Lookup.read, add_event. body_unfold.
  rewrite H1, H2, H3. cbn [negb]. rewrite H4. cbn [Json.concat].
  cbn [files dirs trace]. rewrite H5, H6, H7, H8, H9.
  cbn [Lookup.b64decode_value]. rewrite H10, H11, H12, H13, H14.
  cbn [Json.getitem]. rewrite H15.
  destruct (Json.assoc (lit "metadata") items) as [[| | | | |metadata]|];
    try reflexivity.
  cbn [Json.getitem]. by destruct (Json.assoc (lit "model") metadata).
Qed.

(** An instance of X23. *)
Lemma lookup_link_and_slim_witness :
  (Lookup.skin_url_from_player Sample2.env Sample2.codec (lit "Notch")
     Sample.world).1
  = Ret (Json.Str Sample.skin_link, true).
Proof.
  rewrite (lookup_link_and_slim Sample2.env Sample2.codec (lit "Notch")
             Sample.world [Byte.x10]
             (Json.Obj [(lit "id", Json.Str Sample2.id);
                        (lit "name", Json.Str (lit "Notch"))])
             Sample2.id [Byte.x11] (Lookup.profile_doc Sample2.encoded)
             (Json.Arr [Json.Obj [(lit "name", Json.Str (lit "textures"));
                                  (lit "value", Json.Str Sample2.encoded)]])
             (Json.Obj [(lit "name", Json.Str (lit "textures"));
                        (lit "value", Json.Str Sample2.encoded)])
             Sample2.encoded Sample2.raw Sample2.decoded
             (Lookup.textures_doc Sample.skin_link (Some (lit "slim")))
             (Json.Obj
                [(lit "SKIN",
                  Json.Obj
                    [(lit "url", Json.Str Sample.skin_link);
                     (lit "metadata",
                      Json.Obj [(lit "model", Json.Str (lit "slim"))])])])
             [(lit "url", Json.Str Sample.skin_link);
              (lit "metadata",
               Json.Obj [(lit "model", Json.Str (lit "slim"))])]
             (Json.Str Sample.skin_link));
    reflexivity.
Defined.


